(** * be_klinik: payment state reconciliation

    A shallow embedding of the Express route handlers of the clinic payment
    backend (routes/transaction.js, routes/booking.js and the token check of
    middleware/auth.js) over a model of the Firestore document store and of
    the Midtrans client, followed by the properties of the reconciliation
    engine and of the other routes.

    - JavaScript values are the inductive [value]; objects are finite maps
      from property names to values.
    - The document store is four collections of documents, each a finite map
      from document ids to documents.
    - A handler is a computation in the monad [js]: it threads the store and
      the log of provider calls, and ends normally, by a thrown exception, or
      by sending the HTTP response.
    - The payment provider is a record of functions giving, for each call,
      the value the promise resolves to or the error it rejects with.

    What is taken from the libraries and not from the sources: a document
    reference is made from a non-empty string, which the model reads as the
    id of the document (the statements that reach a document by an id that
    is not a key of the store assume [document_id], one path segment as the
    store takes them); [update] fails on a document that does not exist; a write batch is applied as a whole or not at all; the server
    stamps the timestamp sentinel with its time when it writes.  The texts of
    the errors thrown by the libraries stand for the libraries' own; the
    handlers show them only through create-order's [error.message].
    Logging is left out. *)

From Stdlib Require Import ZArith String Ascii List Bool.
From stdpp Require Import base option gmap strings list fin_maps pretty.

#[local] Set Warnings "-register-all".
#[local] Open Scope string_scope.
#[local] Open Scope Z_scope.

(** ** JavaScript values *)

(** Numbers are the integers (those that print without an exponent);
    [VNaN] is what [parseInt] gives on a non-numeric input.
    [VServerTimestamp] is the sentinel
    [admin.firestore.FieldValue.serverTimestamp()], which the store replaces by
    [VTime t] when it writes. *)
Inductive value :=
| VUndef
| VNull
| VBool (b : bool)
| VNum (n : Z)
| VNaN
| VStr (s : string)
| VServerTimestamp
| VTime (t : nat)
| VArr (items : list value)
| VObj (fields : gmap string value).

Abbreviation object := (gmap string value).

(** [{ k1: v1, ..., kn: vn }]: a later key overrides an earlier one. *)
Definition fields_of (l : list (string * value)) : object :=
  list_to_map (reverse l).

Definition obj (l : list (string * value)) : value := VObj (fields_of l).

(** [!!v] *)
Definition truthy (v : value) : bool :=
  match v with
  | VUndef | VNull | VNaN => false
  | VBool b => b
  | VNum n => negb (n =? 0)
  | VStr s => negb (String.eqb s "")
  | VServerTimestamp | VTime _ | VArr _ | VObj _ => true
  end.

(** [a || b] *)
Definition js_or (a b : value) : value := if truthy a then a else b.

(** [v === 'lit'] for a string literal. *)
Definition is_str (v : value) (lit : string) : bool :=
  match v with
  | VStr s => String.eqb s lit
  | _ => false
  end.

(** [[l1, ..., ln].includes(v)] for an array of string literals. *)
Definition includes (l : list string) (v : value) : bool :=
  existsb (is_str v) l.

(** [o.k] on the data of a document, or on an object known not to be null. *)
Definition field (o : object) (k : string) : value := default VUndef (o !! k).

(** [`${v}`]; the elements of an array are joined by commas, [null] and
    [undefined] among them printing as the empty string. *)
Fixpoint to_string (v : value) : string :=
  match v with
  | VUndef => "undefined"
  | VNull => "null"
  | VBool true => "true"
  | VBool false => "false"
  | VNum n => pretty n
  | VNaN => "NaN"
  | VStr s => s
  | VArr l =>
      String.concat ","
        (map (λ x, match x with
                   | VUndef | VNull => ""
                   | _ => to_string x
                   end) l)
  | VServerTimestamp | VTime _ | VObj _ => "[object Object]"
  end.

(** *** parseInt *)

Definition is_space (c : ascii) : bool :=
  let n := nat_of_ascii c in
  ((9 <=? n) && (n <=? 13))%nat || (n =? 32)%nat.

Fixpoint skip_spaces (s : string) : string :=
  match s with
  | String c r => if is_space c then skip_spaces r else s
  | EmptyString => s
  end.

Definition digit_val (c : ascii) : option Z :=
  let n := nat_of_ascii c in
  if ((48 <=? n) && (n <=? 57))%nat then Some (Z.of_nat (n - 48)) else None.

Definition hex_val (c : ascii) : option Z :=
  let n := nat_of_ascii c in
  if ((48 <=? n) && (n <=? 57))%nat then Some (Z.of_nat (n - 48))
  else if ((97 <=? n) && (n <=? 102))%nat then Some (Z.of_nat (n - 87))
  else if ((65 <=? n) && (n <=? 70))%nat then Some (Z.of_nat (n - 55))
  else None.

(** The longest prefix of digits, [None] when there is no digit. *)
Fixpoint parse_digits (radix : Z) (dv : ascii → option Z) (s : string)
    (acc : option Z) : option Z :=
  match s with
  | String c r =>
      match dv c with
      | Some d => parse_digits radix dv r (Some (radix * default 0 acc + d))
      | None => acc
      end
  | EmptyString => acc
  end.

(** [parseInt(s)] for a string [s]. *)
Definition parse_int (s : string) : value :=
  let s := skip_spaces s in
  let '(neg, s) :=
    match s with
    | String "-" r => (true, r)
    | String "+" r => (false, r)
    | _ => (false, s)
    end in
  let digits :=
    match s with
    | String "0" (String "x" r) | String "0" (String "X" r) =>
        parse_digits 16 hex_val r None
    | _ => parse_digits 10 digit_val s None
    end in
  match digits with
  | Some n => VNum (if neg : bool then - n else n)
  | None => VNaN
  end.

(** [parseInt(v)]: the value is converted to a string and the string is
    read, so that [parseInt([42])] is 42.  A number, here an integer, is
    printed as its numeral and read back as itself (JS prints the numeral
    in full below 10^21, and holds the integers up to 2^53 exactly). *)
Definition parseInt (v : value) : value :=
  match v with
  | VNum n => VNum n
  | _ => parse_int (to_string v)
  end.

(** ** The document store *)

Inductive collection := Transactions | Orders | Tagihan | Bookings.

(** [db = admin.firestore()].  config/firebase.js is not part of the sources,
    so the setting [ignoreUndefinedProperties] is a field of the handle: when
    it is off (the default of the SDK) a write whose data holds [undefined]
    is refused; when it is on such properties are skipped. *)
Record firestore := Firestore {
  ignoreUndefinedProperties : bool;
  serverTime : nat;
  transactions : gmap string object;
  orders : gmap string object;
  tagihan : gmap string object;
  bookings : gmap string object
}.

Definition coll (d : firestore) (c : collection) : gmap string object :=
  match c with
  | Transactions => transactions d
  | Orders => orders d
  | Tagihan => tagihan d
  | Bookings => bookings d
  end.

Definition set_coll (d : firestore) (c : collection) (m : gmap string object)
    : firestore :=
  match c with
  | Transactions =>
      Firestore (ignoreUndefinedProperties d) (serverTime d)
        m (orders d) (tagihan d) (bookings d)
  | Orders =>
      Firestore (ignoreUndefinedProperties d) (serverTime d)
        (transactions d) m (tagihan d) (bookings d)
  | Tagihan =>
      Firestore (ignoreUndefinedProperties d) (serverTime d)
        (transactions d) (orders d) m (bookings d)
  | Bookings =>
      Firestore (ignoreUndefinedProperties d) (serverTime d)
        (transactions d) (orders d) (tagihan d) m
  end.

(** A document reference: [db.collection(c).doc(id)]. *)
Definition ref : Type := collection * string.

Fixpoint has_undefined (v : value) : bool :=
  match v with
  | VUndef => true
  | VArr l => existsb has_undefined l
  | VObj fs => map_fold (λ _ x acc, has_undefined x || acc) false fs
  | _ => false
  end.

Fixpoint strip_undefined (v : value) : value :=
  match v with
  | VArr l =>
      VArr (omap (λ x, match x with
                       | VUndef => None
                       | _ => Some (strip_undefined x)
                       end) l)
  | VObj fs =>
      VObj (omap (λ x, match x with
                       | VUndef => None
                       | _ => Some (strip_undefined x)
                       end) fs)
  | _ => v
  end.

(** The server replaces the timestamp sentinel of a written field by its
    time. *)
Definition stamp (now : nat) (v : value) : value :=
  match v with
  | VServerTimestamp => VTime now
  | _ => v
  end.

(** What the SDK makes of the data of a [set] or an [update]: [None] when it
    refuses them. *)
Definition encode (d : firestore) (data : object) : option object :=
  if has_undefined (VObj data) then
    if ignoreUndefinedProperties d then
      match strip_undefined (VObj data) with
      | VObj fs => Some (stamp (serverTime d) <$> fs)
      | _ => None
      end
    else None
  else Some (stamp (serverTime d) <$> data).

(** ** Exceptions, responses, and the handler monad *)

(** A thrown error: [message], and for the errors of the Midtrans client
    [httpStatusCode] and [ApiResponse] ([VUndef] on any other error). *)
Record exn := Exn {
  message : string;
  httpStatusCode : value;
  ApiResponse : value
}.

Definition Error (msg : string) : exn := Exn msg VUndef VUndef.

(** [res.status(code).json(body)] *)
Record response := Response {
  status_code : nat;
  body : value
}.

(** Calls made to the payment provider, in the order they are made. *)
Inductive call :=
| StatusCall (orderId : value)
| CreateCall (payload : value)
| NotificationCall (notification : value).

Record world := World {
  db : firestore;
  calls : list call
}.

Inductive outcome (A : Type) :=
| Done (a : A)
| Thrown (e : exn)
| Sent (r : response).
Arguments Done {A} a.
Arguments Thrown {A} e.
Arguments Sent {A} r.

Definition js (A : Type) : Type := world → world * outcome A.

#[global] Instance js_ret : MRet js := λ A a w, (w, Done a).
#[global] Instance js_bind : MBind js := λ A B f m w,
  match m w with
  | (w', Done a) => f a w'
  | (w', Thrown e) => (w', Thrown e)
  | (w', Sent r) => (w', Sent r)
  end.

Definition throw {A} (e : exn) : js A := λ w, (w, Thrown e).

(** [return res.status(code).json(body)], and [res.json(body)] as the last
    statement of a handler. *)
Definition send {A} (code : nat) (body : value) : js A :=
  λ w, (w, Sent (Response code body)).

(** [try { body } catch (error) { h error }] *)
Definition try_catch {A} (body : js A) (h : exn → js A) : js A := λ w,
  match body w with
  | (w', Thrown e) => h e w'
  | r => r
  end.

(** [v.k]: a TypeError on [null] and [undefined], [undefined] on the other
    primitives and on arrays (the handlers read no property that a string, a
    number or an array has of its own). *)
Definition prop (v : value) (k : string) : js value :=
  match v with
  | VUndef | VNull =>
      throw (Error ("Cannot read properties of " +:+ to_string v))
  | VObj fs => mret (field fs k)
  | VBool _ | VNum _ | VNaN | VStr _ | VServerTimestamp | VTime _ | VArr _ =>
      mret VUndef
  end.

(** ** The payment provider *)

Inductive answer := Resolves (v : value) | Rejects (e : exn).

(** The Midtrans clients [core] and [snap] of config/midtrans.js, by what
    each call answers. *)
Record midtrans := Midtrans {
  core_transaction_status : value → answer;
  snap_createTransaction : value → answer;
  snap_transaction_notification : value → answer
}.

Definition await (a : answer) : js value :=
  match a with
  | Resolves v => mret v
  | Rejects e => throw e
  end.

Definition log_call (c : call) : js unit :=
  λ w, (World (db w) (calls w ++ [c])%list, Done ()).

Definition transaction_status (p : midtrans) (orderId : value) : js value :=
  log_call (StatusCall orderId);; await (core_transaction_status p orderId).

Definition createTransaction (p : midtrans) (payload : value) : js value :=
  log_call (CreateCall payload);; await (snap_createTransaction p payload).

Definition transaction_notification (p : midtrans) (n : value) : js value :=
  log_call (NotificationCall n);; await (snap_transaction_notification p n).

(** ** Operations of the store *)

(** [db.collection(c).doc(id)]: the id must be a non-empty string.  The
    string is taken as the id of the document; the library reads it as a
    path, which is the same thing on a [document_id]. *)
Definition doc (c : collection) (id : value) : js ref :=
  match id with
  | VStr s =>
      if String.eqb s "" then
        throw (Error "documentPath must be a non-empty string")
      else mret (c, s)
  | _ => throw (Error "documentPath must be a non-empty string")
  end.

(** [await ref.get()]: [None] is a snapshot with [exists] false, [Some o] one
    with [data()] equal to [o]. *)
Definition get (r : ref) : js (option object) :=
  λ w, (w, Done (coll (db w) r.1 !! r.2)).

Definition put (r : ref) (o : object) : js unit :=
  λ w, (World (set_coll (db w) r.1 (<[r.2 := o]> (coll (db w) r.1))) (calls w),
        Done ()).

Definition encoded (data : object) : js object :=
  λ w, match encode (db w) data with
       | Some o => (w, Done o)
       | None => (w, Thrown (Error "Cannot use undefined as a Firestore value"))
       end.

(** [await ref.set(data)] *)
Definition set (r : ref) (data : object) : js unit :=
  o ← encoded data; put r o.

(** [await ref.update(data)]: fails on a document that does not exist,
    otherwise overwrites the given fields and keeps the others. *)
Definition update (r : ref) (data : object) : js unit :=
  o ← encoded data;
  old ← get r;
  match old with
  | Some cur => put r (o ∪ cur)
  | None => throw (Error "NOT_FOUND: No document to update")
  end.

(** [await ref.delete()] *)
Definition delete_doc (r : ref) : js unit :=
  λ w, (World (set_coll (db w) r.1 (delete r.2 (coll (db w) r.1))) (calls w),
        Done ()).

(** A write batch: [batch.update(ref, data)] checks the data when it is
    called; [batch.commit()] applies all updates or none. *)
Definition batch : Type := list (ref * object).

Definition batch_update (b : batch) (r : ref) (data : object) : js batch :=
  o ← encoded data; mret (b ++ [(r, o)])%list.

Definition apply_update (d : firestore) (u : ref * object) : firestore :=
  match coll d u.1.1 !! u.1.2 with
  | Some cur => set_coll d u.1.1 (<[u.1.2 := u.2 ∪ cur]> (coll d u.1.1))
  | None => d
  end.

Definition batch_commit (b : batch) : js unit := λ w,
  if forallb (λ u : ref * object,
                bool_decide (is_Some (coll (db w) u.1.1 !! u.1.2))) b
  then (World (foldl apply_update (db w) b) (calls w), Done ())
  else (w, Thrown (Error "NOT_FOUND: No document to update")).

(** ** routes/transaction.js: the two reconciliation paths *)

(** The local variables [status], [paymentStatus], [tagihanStatus] and
    [isLocalStatus] of the two handlers. *)
Record locals := Locals {
  status : value;
  paymentStatus : value;
  tagihanStatus : value;
  isLocalStatus : bool
}.

(** [let status = transaction.status; ...; let isLocalStatus = true;] *)
Definition stored_locals (transaction : object) : locals :=
  Locals (field transaction "status") (field transaction "paymentStatus")
    (field transaction "tagihanStatus") true.

(** The mapping of the webhook handler (the [if]/[else if] chain on
    [transactionStatus]). *)
Definition map_notification (transactionStatus : value) (l : locals) : locals :=
  if is_str transactionStatus "capture" || is_str transactionStatus "settlement"
  then Locals (VStr "confirmed") (VStr "Berhasil") (VStr "Berhasil")
         (isLocalStatus l)
  else if is_str transactionStatus "pending"
  then Locals (VStr "pending") (VStr "unpaid") (VStr "unpaid") (isLocalStatus l)
  else if includes ["cancel"; "deny"; "expire"] transactionStatus
  then Locals (VStr "cancelled") (VStr "failed") (VStr "failed")
         (isLocalStatus l)
  else l.

(** The mapping of the status-check handler, after [isLocalStatus = false]. *)
Definition map_check_status (transStatus : value) (l : locals) : locals :=
  if is_str transStatus "capture" || is_str transStatus "settlement"
  then Locals (VStr "confirmed") (VStr "Berhasil") (VStr "Berhasil") false
  else if is_str transStatus "pending"
  then Locals (VStr "pending") (VStr "unpaid") (VStr "unpaid") false
  else if includes ["cancel"; "deny"; "expire"] transStatus
  then Locals (VStr "cancelled") (VStr "failed") (VStr "failed") false
  else Locals (status l) (paymentStatus l) (tagihanStatus l) false.

(** The four [batch.update] calls and the commit, shared text of the two
    handlers. *)
Definition update_all (transactionRef orderRef tagihanRef bookingRef : ref)
    (l : locals) (midtrans_status : value) : js unit :=
  b ← batch_update [] transactionRef (fields_of [
        ("paymentStatus", paymentStatus l);
        ("status", status l);
        ("tagihanStatus", tagihanStatus l);
        ("midtrans_status", midtrans_status);
        ("updated_at", VServerTimestamp)]);
  b ← batch_update b orderRef (fields_of [
        ("paymentStatus", paymentStatus l);
        ("status", status l);
        ("updated_at", VServerTimestamp)]);
  b ← batch_update b tagihanRef (fields_of [
        ("status", tagihanStatus l);
        ("updated_at", VServerTimestamp)]);
  b ← batch_update b bookingRef (fields_of [
        ("paymentStatus", paymentStatus l);
        ("status", status l);
        ("tagihanStatus", tagihanStatus l);
        ("updated_at", VServerTimestamp)]);
  batch_commit b.

(** [router.post('/notification', ...)] *)
Definition notification (p : midtrans) (req_body : value) : js unit :=
  try_catch
    (notification ← transaction_notification p req_body;
     orderId ← prop notification "order_id";
     transactionStatus ← prop notification "transaction_status";
     fraudStatus ← prop notification "fraud_status";
     transactionRef ← doc Transactions orderId;
     orderRef ← doc Orders orderId;
     tagihanRef ← doc Tagihan orderId;
     transactionDoc ← get transactionRef;
     match transactionDoc with
     | None => throw (Error "Transaction document not found")
     | Some transaction =>
         orderDoc ← get orderRef;
         match orderDoc with
         | None =>
             send 404 (obj [("success", VBool false);
                            ("error", VStr "Order not found")])
         | Some orderData =>
             bookingRef ← doc Bookings (field orderData "bookingId");
             let l := map_notification transactionStatus
                        (stored_locals transaction) in
             update_all transactionRef orderRef tagihanRef bookingRef l
               notification;;
             send 200 (obj [("success", VBool true)])
         end
     end)
    (λ error,
       send 500 (obj [("success", VBool false);
                      ("error", VStr "Failed to process notification")])).

Definition data_or_null (snapshot : option object) : value :=
  match snapshot with
  | Some o => VObj o
  | None => VNull
  end.

(** [router.get('/check-status/:orderId', ...)], past [verifyToken] and the
    rate limiter.  The assignments to the local variables made inside the
    inner [try] survive its [catch]: the block that can fail after them gives
    back the mapped variables, the earlier part the stored ones. *)
Definition check_status (p : midtrans) (orderId : string) : js unit :=
  try_catch
    (transactionRef ← doc Transactions (VStr orderId);
     orderRef ← doc Orders (VStr orderId);
     tagihanRef ← doc Tagihan (VStr orderId);
     transactionDoc ← get transactionRef;
     match transactionDoc with
     | None =>
         send 404 (obj [("success", VBool false);
                        ("error", VStr "Transaction not found")])
     | Some transaction =>
         orderDoc ← get orderRef;
         match orderDoc with
         | None =>
             send 404 (obj [("success", VBool false);
                            ("error", VStr "Order not found")])
         | Some orderData =>
             bookingRef ← doc Bookings (field orderData "bookingId");
             let l0 := stored_locals transaction in
             l ← (if truthy (field transaction "snap_token") then
                    try_catch
                      (midtransStatus ← transaction_status p (VStr orderId);
                       transStatus ← prop midtransStatus "transaction_status";
                       let l := map_check_status transStatus l0 in
                       try_catch
                         (update_all transactionRef orderRef tagihanRef
                            bookingRef l midtransStatus;;
                          mret l)
                         (λ error, mret l))
                      (λ error, mret l0)
                  else mret l0);
             latestOrderDoc ← get orderRef;
             tagihanDoc ← get tagihanRef;
             bookingDoc ← get bookingRef;
             send 200 (obj [
               ("success", VBool true);
               ("data", obj [
                  ("transaction", obj [
                     ("orderId", VStr orderId);
                     ("status", status l);
                     ("paymentStatus", paymentStatus l);
                     ("tagihanStatus", tagihanStatus l);
                     ("isLocalStatus", VBool (isLocalStatus l));
                     ("transaction_status", status l)]);
                  ("order", data_or_null latestOrderDoc);
                  ("tagihan", data_or_null tagihanDoc);
                  ("booking", data_or_null bookingDoc)])])
         end
     end)
    (λ error,
       send 500 (obj [("success", VBool false);
                      ("error", VStr "Failed to check status")])).

(** ** routes/transaction.js: creation of the records and of the token *)

Definition payment_url_of (token : value) : value :=
  VStr ("https://app.midtrans.com/snap/v2/vtweb/" +:+ to_string token).

(** [router.post('/create-transaction', verifyToken, ...)]; [uid] is
    [req.user.uid]. *)
Definition create_transaction (p : midtrans) (uid : string) (req_body : object)
    : js unit :=
  try_catch
    (let bookingId := field req_body "bookingId" in
     let orderId := field req_body "orderId" in
     let amount := field req_body "amount" in
     let customer_details := field req_body "customer_details" in
     let payment_type := field req_body "payment_type" in
     if negb (truthy bookingId) || negb (truthy orderId)
        || negb (truthy amount) || negb (truthy customer_details)
     then send 400 (obj [("success", VBool false);
                         ("error", VStr "Missing required fields")])
     else
     (* Step 1: Create or get order *)
     orderRef ← doc Orders orderId;
     orderDoc ← get orderRef;
     orderData ←
       match orderDoc with
       | None =>
           let orderData := fields_of [
             ("bookingId", bookingId);
             ("orderId", orderId);
             ("amount", amount);
             ("userId", VStr uid);
             ("status", VStr "pending");
             ("created_at", VServerTimestamp);
             ("updated_at", VServerTimestamp)] in
           set orderRef orderData;; mret orderData
       | Some orderData =>
           if negb (is_str (field orderData "userId") uid)
           then send 403 (obj [("success", VBool false);
                               ("error", VStr "Access denied")])
           else mret orderData
       end;
     (* Step 2: Create or get tagihan *)
     tagihanRef ← doc Tagihan orderId;
     tagihanDoc ← get tagihanRef;
     tagihanData ←
       match tagihanDoc with
       | None =>
           let tagihanData := fields_of [
             ("orderId", orderId);
             ("bookingId", bookingId);
             ("amount", amount);
             ("status", VStr "pending");
             ("userId", VStr uid);
             ("created_at", VServerTimestamp);
             ("updated_at", VServerTimestamp)] in
           set tagihanRef tagihanData;; mret tagihanData
       | Some tagihanData => mret tagihanData
       end;
     (* Step 3: Check if transaction exists in Midtrans *)
     existingMidtransTransaction ←
       try_catch (transaction_status p orderId) (λ error, mret VUndef);
     snapResponse ←
       (if negb (truthy existingMidtransTransaction) then
          name ← prop customer_details "name";
          email ← prop customer_details "email";
          phone ← prop customer_details "phone";
          let snapPayload := fields_of [
            ("transaction_details", obj [
               ("order_id", orderId);
               ("gross_amount", parseInt amount)]);
            ("customer_details", obj [
               ("first_name", js_or name (VStr "Customer"));
               ("email", js_or email (VStr "customer@example.com"));
               ("phone", js_or phone (VStr "08123456789"))])] in
          let snapPayload :=
            if truthy payment_type
            then <["enabled_payments" := VArr [payment_type]]> snapPayload
            else snapPayload in
          try_catch (createTransaction p (VObj snapPayload))
            (λ error,
               send 500 (obj [
                 ("success", VBool false);
                 ("error", VStr "Failed to create payment transaction")]))
        else
          snap_token ← prop existingMidtransTransaction "snap_token";
          redirect_url ← prop existingMidtransTransaction "redirect_url";
          mret (obj [("token", snap_token); ("redirect_url", redirect_url)]));
     (* Step 4: Create or update transaction document with Midtrans data *)
     transactionRef ← doc Transactions orderId;
     transactionDoc ← get transactionRef;
     token ← prop snapResponse "token";
     redirect_url ← prop snapResponse "redirect_url";
     transactionData ←
       match transactionDoc with
       | None =>
           let transactionData := fields_of [
             ("orderId", orderId);
             ("bookingId", bookingId);
             ("amount", amount);
             ("customer_details", customer_details);
             ("userId", VStr uid);
             ("status", VStr "pending");
             ("payment_type", js_or payment_type VNull);
             ("snap_token", token);
             ("redirect_url", redirect_url);
             ("payment_url", payment_url_of token);
             ("midtrans_created", VBool true);
             ("created_at", VServerTimestamp);
             ("updated_at", VServerTimestamp)] in
           set transactionRef transactionData;; mret transactionData
       | Some transactionData =>
           update transactionRef (fields_of [
             ("snap_token", token);
             ("redirect_url", redirect_url);
             ("payment_url", payment_url_of token);
             ("midtrans_created", VBool true);
             ("updated_at", VServerTimestamp)]);;
           mret (fields_of [
             ("snap_token", token);
             ("redirect_url", redirect_url);
             ("payment_url", payment_url_of token);
             ("midtrans_created", VBool true)] ∪ transactionData)
       end;
     send 201 (obj [
       ("success", VBool true);
       ("data", obj [
          ("order", VObj orderData);
          ("tagihan", VObj tagihanData);
          ("transaction", VObj transactionData)])]))
    (λ error,
       send 500 (obj [("success", VBool false);
                      ("error", VStr "Failed to process transaction")])).

Definition validPaymentTypes : list string :=
  ["credit_card"; "mandiri_clickpay"; "cimb_clicks";
   "bca_klikbca"; "bca_klikpay"; "bri_epay"; "echannel"; "permata_va";
   "bca_va"; "bni_va"; "other_va"; "gopay"; "indomaret"; "shopeepay"].

(** [router.post('/create-order', verifyToken, ...)].  The test [!snap] is
    left out: config/midtrans.js exports a constructed client or fails at
    start-up. *)
Definition create_order (p : midtrans) (uid : string) (req_body : object)
    : js unit :=
  try_catch
    (let bookingId := field req_body "bookingId" in
     let orderId := field req_body "orderId" in
     let amount := field req_body "amount" in
     let customerDetails := field req_body "customerDetails" in
     let paymentType := field req_body "paymentType" in
     if negb (truthy bookingId) || negb (truthy orderId)
        || negb (truthy amount) || negb (truthy customerDetails)
        || negb (truthy paymentType)
     then send 400 (obj [("success", VBool false);
                         ("error", VStr "Missing required fields")])
     else
     (* Get or create order document *)
     orderRef ← doc Orders orderId;
     orderDoc ← get orderRef;
     order ←
       match orderDoc with
       | None =>
           let order := fields_of [
             ("bookingId", bookingId);
             ("orderId", orderId);
             ("amount", amount);
             ("customerDetails", customerDetails);
             ("paymentType", paymentType);
             ("userId", VStr uid);
             ("status", VStr "pending");
             ("created_at", VServerTimestamp);
             ("updated_at", VServerTimestamp)] in
           set orderRef order;; mret order
       | Some order =>
           if negb (is_str (field order "userId") uid)
           then send 403 (obj [("success", VBool false);
                               ("error", VStr "Access denied")])
           else mret order
       end;
     (* Get or create tagihan *)
     tagihanRef ← doc Tagihan orderId;
     tagihanDoc ← get tagihanRef;
     tagihan ←
       match tagihanDoc with
       | None =>
           let tagihan := fields_of [
             ("bookingId", bookingId);
             ("orderId", orderId);
             ("amount", amount);
             ("status", VStr "pending");
             ("userId", VStr uid);
             ("created_at", VServerTimestamp);
             ("updated_at", VServerTimestamp)] in
           set tagihanRef tagihan;; mret tagihan
       | Some tagihan => mret tagihan
       end;
     (* Create Midtrans transaction *)
     transactionRef ← doc Transactions orderId;
     transactionDoc ← get transactionRef;
     transaction ←
       match transactionDoc with
       | None =>
           name ← prop customerDetails "name";
           email ← prop customerDetails "email";
           phone ← prop customerDetails "phone";
           let midtransPayload := fields_of [
             ("transaction_details", obj [
                ("order_id", orderId);
                ("gross_amount", parseInt amount)]);
             ("item_details", VArr [obj [
                ("id", bookingId);
                ("price", parseInt amount);
                ("quantity", VNum 1);
                ("name", VStr "Medical Consultation")]]);
             ("customer_details", obj [
                ("first_name", js_or name (VStr "Customer"));
                ("email", js_or email (VStr "customer@example.com"));
                ("phone", js_or phone (VStr "08123456789"))])] in
           let midtransPayload :=
             if truthy paymentType && negb (is_str paymentType "all")
             then if includes validPaymentTypes paymentType
                  then <["enabled_payments" := VArr [paymentType]]>
                         midtransPayload
                  else midtransPayload
             else midtransPayload in
           try_catch
             (midtransResponse ← createTransaction p (VObj midtransPayload);
              token ← (if truthy midtransResponse
                       then prop midtransResponse "token" else mret VUndef);
              redirect_url ← (if truthy token
                              then prop midtransResponse "redirect_url"
                              else mret VUndef);
              if negb (truthy midtransResponse) || negb (truthy token)
                 || negb (truthy redirect_url)
              then throw (Error
                "Invalid Midtrans response: missing token or redirect URL")
              else
              (* Only create local transaction after Midtrans success *)
              let transaction := fields_of [
                ("bookingId", bookingId);
                ("orderId", orderId);
                ("amount", parseInt amount);
                ("userId", VStr uid);
                ("status", VStr "pending");
                ("payment_type", paymentType);
                ("snap_token", token);
                ("redirect_url", redirect_url);
                ("created_at", VServerTimestamp);
                ("updated_at", VServerTimestamp)] in
              set transactionRef transaction;; mret transaction)
             (λ error,
                (* Clean up if Midtrans transaction failed *)
                delete_doc orderRef;;
                delete_doc tagihanRef;;
                status_message ←
                  (if truthy (ApiResponse error)
                   then prop (ApiResponse error) "status_message"
                   else mret VUndef);
                if truthy (ApiResponse error) && truthy status_message
                then throw (Error
                       ("Payment error: " +:+ to_string status_message))
                else throw (Error
                       "Failed to process payment. Please try again."))
       | Some transaction =>
           if negb (is_str (field transaction "userId") uid)
           then send 403 (obj [("success", VBool false);
                               ("error", VStr "Access denied")])
           else mret transaction
       end;
     send 200 (obj [
       ("success", VBool true);
       ("data", obj [
          ("order", VObj order);
          ("tagihan", VObj tagihan);
          ("transaction", VObj transaction)])]))
    (λ error,
       send 500 (obj [
         ("success", VBool false);
         ("error", js_or (VStr (message error))
                     (VStr "Failed to create order"))])).

(** [router.get('/payment-url/:orderId', verifyToken, ...)] *)
Definition payment_url (p : midtrans) (orderId : string) : js unit :=
  try_catch
    (transactionRef ← doc Transactions (VStr orderId);
     transactionDoc ← get transactionRef;
     match transactionDoc with
     | None =>
         send 404 (obj [("success", VBool false);
                        ("error", VStr "Transaction not found")])
     | Some transaction =>
         (* If we have an existing payment URL, return it *)
         if truthy (field transaction "payment_url") then
           send 200 (obj [
             ("success", VBool true);
             ("data", obj [
                ("transaction", obj [
                   ("orderId", VStr orderId);
                   ("payment_url", field transaction "payment_url");
                   ("token", field transaction "snap_token")])])])
         else
         (* If no payment URL, create new transaction *)
         orderRef ← doc Orders (VStr orderId);
         orderDoc ← get orderRef;
         match orderDoc with
         | None =>
             send 404 (obj [("success", VBool false);
                            ("error", VStr "Order not found")])
         | Some order =>
             let parameter := obj [
               ("transaction_details", obj [
                  ("order_id", VStr orderId);
                  ("gross_amount", field order "amount")]);
               ("credit_card", obj [("secure", VBool true)])] in
             newTransaction ← createTransaction p parameter;
             token ← prop newTransaction "token";
             redirect_url ← prop newTransaction "redirect_url";
             (* Update transaction with new details *)
             update transactionRef (fields_of [
               ("snap_token", token);
               ("payment_url", redirect_url);
               ("updated_at", VServerTimestamp)]);;
             send 200 (obj [
               ("success", VBool true);
               ("data", obj [
                  ("transaction", obj [
                     ("orderId", VStr orderId);
                     ("token", token);
                     ("payment_url", redirect_url)])])])
         end
     end)
    (λ error,
       send 500 (obj [("success", VBool false);
                      ("error", VStr "Failed to get payment URL")])).

(** ** routes/booking.js *)

(** [router.patch('/bookings/:id/status', verifyToken, ...)] *)
Definition update_booking_status (uid : string) (id : string)
    (req_body : object) : js unit :=
  try_catch
    (let status := field req_body "status" in
     let paymentStatus := field req_body "paymentStatus" in
     bookingRef ← doc Bookings (VStr id);
     bookingDoc ← get bookingRef;
     match bookingDoc with
     | None =>
         send 404 (obj [("success", VBool false);
                        ("error", VStr "Booking not found")])
     | Some booking =>
         (* Check if user has access to this booking *)
         if negb (is_str (field booking "pasienId") uid)
         then send 403 (obj [("success", VBool false);
                             ("error", VStr "Access denied")])
         else
         let updateData := fields_of [("updatedAt", VServerTimestamp)] in
         updateData ←
           (if truthy status then
              if negb (includes
                         ["pending"; "confirmed"; "cancelled"; "completed"]
                         status)
              then send 400 (obj [("success", VBool false);
                                  ("error", VStr "Invalid status")])
              else mret (<["status" := status]> updateData)
            else mret updateData);
         updateData ←
           (if truthy paymentStatus then
              if negb (includes ["unpaid"; "Berhasil"; "refunded"]
                         paymentStatus)
              then send 400 (obj [("success", VBool false);
                                  ("error", VStr "Invalid payment status")])
              else mret (<["paymentStatus" := paymentStatus]> updateData)
            else mret updateData);
         update bookingRef updateData;;
         updatedBooking ← get bookingRef;
         send 200 (obj [
           ("success", VBool true);
           ("data", VObj (default ∅ updatedBooking
                          ∪ fields_of [("id", VStr id)]))])
     end)
    (λ error,
       send 500 (obj [("success", VBool false);
                      ("error", VStr "Failed to update booking status")])).

(** ** Vocabulary of the statements *)

(** The provider statuses the mapping knows. *)
Definition recognized (ts : value) : Prop :=
  includes ["capture"; "settlement"; "pending"; "cancel"; "deny"; "expire"] ts
  = true.

(** The records of order [id] and of its booking [bid] exist, the order names
    the booking, and the transaction carries a token. *)
Definition linked (d : firestore) (id bid : string) : Prop :=
  id ≠ "" ∧ bid ≠ "" ∧
  ∃ t o g b,
    transactions d !! id = Some t ∧ orders d !! id = Some o ∧
    tagihan d !! id = Some g ∧ bookings d !! bid = Some b ∧
    field o "bookingId" = VStr bid ∧ truthy (field t "snap_token") = true.

(** What a reconciliation leaves on the four records: the three values on the
    transaction and on the booking, status and payment status on the order,
    and the billing status as the [status] of the billing statement. *)
Definition carries (d : firestore) (id bid : string) (st ps bs : value) : Prop :=
  ∃ t o g b,
    transactions d !! id = Some t ∧ orders d !! id = Some o ∧
    tagihan d !! id = Some g ∧ bookings d !! bid = Some b ∧
    (field t "status" = st ∧ field t "paymentStatus" = ps
     ∧ field t "tagihanStatus" = bs) ∧
    (field o "status" = st ∧ field o "paymentStatus" = ps) ∧
    field g "status" = bs ∧
    (field b "status" = st ∧ field b "paymentStatus" = ps
     ∧ field b "tagihanStatus" = bs).


(** One delivery of a provider status to the engine, by either path. *)
Inductive delivery :=
| Webhook (p : midtrans) (req_body : value)
| Poll (p : midtrans).

Definition deliver (e : delivery) (id : string) : js unit :=
  match e with
  | Webhook p req_body => notification p req_body
  | Poll p => check_status p id
  end.

(** The provider reports status [ts] for order [id] in this delivery. *)
Definition reports (e : delivery) (id : string) (ts : value) : Prop :=
  match e with
  | Webhook p req_body =>
      ∃ n, snap_transaction_notification p req_body = Resolves (VObj n)
           ∧ has_undefined (VObj n) = false
           ∧ field n "order_id" = VStr id
           ∧ field n "transaction_status" = ts
  | Poll p =>
      ∃ ms, core_transaction_status p (VStr id) = Resolves (VObj ms)
            ∧ has_undefined (VObj ms) = false
            ∧ field ms "transaction_status" = ts
  end.

Definition ok_response : response :=
  Response 200 (obj [("success", VBool true)]).

Definition error_response (code : nat) (msg : string) : response :=
  Response code (obj [("success", VBool false); ("error", VStr msg)]).

(** The body of the answer of the status check: the transaction part from the
    local variables [l], the three other parts read from the store [d]. *)
Definition status_view (orderId : string) (l : locals) (d : firestore)
    (bid : string) : value :=
  obj [
    ("success", VBool true);
    ("data", obj [
       ("transaction", obj [
          ("orderId", VStr orderId);
          ("status", status l);
          ("paymentStatus", paymentStatus l);
          ("tagihanStatus", tagihanStatus l);
          ("isLocalStatus", VBool (isLocalStatus l));
          ("transaction_status", status l)]);
       ("order", data_or_null (orders d !! orderId));
       ("tagihan", data_or_null (tagihan d !! orderId));
       ("booking", data_or_null (bookings d !! bid))])].

(** [v.k] without the TypeError, to read a response. *)
Definition member (v : value) (k : string) : value :=
  match v with
  | VObj o => field o k
  | _ => VUndef
  end.

(** The three statuses of a [locals]. *)
Definition triple (l : locals) : value * value * value :=
  (status l, paymentStatus l, tagihanStatus l).

(** ** Sample data *)

(** A provider that reports status [ts] for order [id], by the webhook and
    by the status query, and creates no transaction. *)
Definition reporting (id ts : string) : midtrans :=
  let answer :=
    Resolves (obj [("order_id", VStr id); ("transaction_status", VStr ts)]) in
  Midtrans (λ _, answer) (λ _, Rejects (Error "not used")) (λ _, answer).

(** A store holding the four records of order [id] and booking [bid], all at
    the statuses [st], [ps] and [bs]. *)
Definition sample_db (id bid : string) (st ps bs : string) : firestore :=
  Firestore false 100%nat
    {[ id := fields_of [
         ("orderId", VStr id); ("bookingId", VStr bid);
         ("amount", VNum 50000); ("userId", VStr "user-1");
         ("status", VStr st); ("paymentStatus", VStr ps);
         ("tagihanStatus", VStr bs);
         ("snap_token", VStr "token-1");
         ("redirect_url", VStr "https://pay.example/1")] ]}
    {[ id := fields_of [
         ("orderId", VStr id); ("bookingId", VStr bid);
         ("amount", VNum 50000); ("userId", VStr "user-1");
         ("status", VStr st); ("paymentStatus", VStr ps)] ]}
    {[ id := fields_of [
         ("orderId", VStr id); ("bookingId", VStr bid);
         ("amount", VNum 50000); ("userId", VStr "user-1");
         ("status", VStr bs)] ]}
    {[ bid := fields_of [
         ("bookingId", VStr bid); ("pasienId", VStr "user-1");
         ("status", VStr st); ("paymentStatus", VStr ps);
         ("tagihanStatus", VStr bs)] ]}.

(** The store [d] with collection [c] emptied. *)
Definition without (c : collection) (d : firestore) : firestore :=
  set_coll d c ∅.

(** The store [d] with the fields [l] put on the transaction of [id], the
    other fields of that record, if any, kept. *)
Definition with_transaction (id : string) (l : list (string * value))
    (d : firestore) : firestore :=
  set_coll d Transactions
    (<[id := fields_of l ∪ default ∅ (transactions d !! id)]> (transactions d)).

(** The transaction part of the answer of a creation request, and the token
    and redirect URL in it. *)
Definition returned_transaction (r : response) : value :=
  member (member (body r) "data") "transaction".

Definition returned_token (r : response) : value :=
  member (returned_transaction r) "snap_token".

Definition returned_redirect_url (r : response) : value :=
  member (returned_transaction r) "redirect_url".


(** A provider that knows no transaction and creates one with the given
    token and redirect URL. *)
Definition creating (token url : string) : midtrans :=
  Midtrans
    (λ _, Rejects (Exn "Transaction doesn't exist." (VStr "404") VUndef))
    (λ _, Resolves (obj [("token", VStr token); ("redirect_url", VStr url)]))
    (λ n, Resolves n).


(** A provider that knows no transaction and fails to create one. *)
Definition failing : midtrans :=
  Midtrans
    (λ _, Rejects (Exn "Transaction doesn't exist." (VStr "404") VUndef))
    (λ _, Rejects (Exn "Midtrans API is returning API error."
                     (VStr "500")
                     (obj [("status_message", VStr "Internal error")])))
    (λ n, Resolves n).

(** A store with one booking and no order, billing statement or
    transaction. *)
Definition fresh_db (bid : string) : firestore :=
  Firestore false 100%nat ∅ ∅ ∅
    {[ bid := fields_of [
         ("bookingId", VStr bid); ("pasienId", VStr "user-1");
         ("status", VStr "pending"); ("paymentStatus", VStr "unpaid")] ]}.

Definition sample_request (id bid : string) : object :=
  fields_of [
    ("bookingId", VStr bid); ("orderId", VStr id); ("amount", VNum 50000);
    ("customer_details", obj [("name", VStr "Ani");
                              ("email", VStr "ani@example.com")]);
    ("customerDetails", obj [("name", VStr "Ani");
                             ("email", VStr "ani@example.com")]);
    ("paymentType", VStr "gopay")].

(** A provider that knows no transaction and answers a create call with a
    response that has no token. *)
Definition incomplete : midtrans :=
  Midtrans
    (λ _, Rejects (Exn "Transaction doesn't exist." (VStr "404") VUndef))
    (λ _, Resolves (obj [("redirect_url", VStr "https://pay.example/9")]))
    (λ n, Resolves n).

(** The token stored on the transaction record of order [id]. *)
Definition stored_token (d : firestore) (id : string) : value :=
  member (data_or_null (transactions d !! id)) "snap_token".

(** A well-formed body of a create-order request for order [id]. *)
Definition create_order_request (req_body : object) (id : string) : Prop :=
  field req_body "orderId" = VStr id ∧ id ≠ ""
  ∧ truthy (field req_body "bookingId") = true
  ∧ truthy (field req_body "amount") = true
  ∧ truthy (field req_body "customerDetails") = true
  ∧ truthy (field req_body "paymentType") = true
  ∧ has_undefined (VObj req_body) = false.

(** The create call fails, or succeeds with a response that lacks the token
    or the redirect URL. *)
Definition create_fails (a : answer) : Prop :=
  match a with
  | Rejects _ => True
  | Resolves v =>
      truthy v && truthy (member v "token")
      && truthy (member v "redirect_url") = false
  end.


(** ** routes/transaction.js: the remaining routes *)

(** Of a list of documents with their ids, the one with the least id. *)
Definition first_by_id (l : list (string * object)) : option (string * object) :=
  foldr (λ kv acc,
           match acc with
           | Some kv' => if String.ltb kv.1 kv'.1 then Some kv else acc
           | None => Some kv
           end) None l.

(** [await db.collection(c).where(k, '==', v).limit(1).get()] for a string
    [v]: the documents whose field [k] is that string, in the order of their
    ids, cut to one. *)
Definition where_eq_limit_1 (c : collection) (k v : string) : js (list object) :=
  λ w, (w, Done (match first_by_id
                         (List.filter (λ kv, is_str (field kv.2 k) v)
                            (map_to_list (coll (db w) c))) with
                 | Some kv => [kv.2]
                 | None => []
                 end)).

(** [router.get('/order/:orderId', verifyToken, ...)] *)
Definition get_order (uid : string) (orderId : string) : js unit :=
  try_catch
    (transactionRef ← doc Transactions (VStr orderId);
     transactionDoc ← get transactionRef;
     match transactionDoc with
     | None =>
         send 404 (obj [("success", VBool false);
                        ("error", VStr "Order not found")])
     | Some transaction =>
         if negb (is_str (field transaction "userId") uid)
         then send 403 (obj [("success", VBool false);
                             ("error", VStr "Access denied")])
         else
         (* Get associated tagihan document *)
         tagihanSnapshot ← where_eq_limit_1 Tagihan "orderId" orderId;
         let tagihanData :=
           match tagihanSnapshot with
           | [] => VNull
           | d :: _ => VObj d
           end in
         send 200 (obj [
           ("success", VBool true);
           ("data", VObj (<["tagihan" := tagihanData]> transaction))])
     end)
    (λ error,
       send 500 (obj [("success", VBool false);
                      ("error", VStr "Failed to get order")])).

(** [router.post('/create', verifyToken, ...)] *)
Definition create (p : midtrans) (req_body : object) : js unit :=
  try_catch
    (let orderId := field req_body "orderId" in
     (* Get order details *)
     orderRef ← doc Orders orderId;
     orderDoc ← get orderRef;
     match orderDoc with
     | None =>
         send 404 (obj [("success", VBool false);
                        ("error", VStr "Order not found")])
     | Some order =>
         (* Create transaction parameter *)
         let parameter := obj [
           ("transaction_details", obj [
              ("order_id", orderId);
              ("gross_amount", field order "amount")]);
           ("credit_card", obj [("secure", VBool true)])] in
         (* Create transaction *)
         transaction ← createTransaction p parameter;
         (* Save transaction details *)
         transactionRef ← doc Transactions orderId;
         token ← prop transaction "token";
         redirect_url ← prop transaction "redirect_url";
         set transactionRef (fields_of [
           ("orderId", orderId);
           ("amount", field order "amount");
           ("status", VStr "pending");
           ("paymentStatus", VStr "unpaid");
           ("tagihanStatus", VStr "unpaid");
           ("snap_token", token);
           ("payment_url", redirect_url);
           ("created_at", VServerTimestamp);
           ("updated_at", VServerTimestamp)]);;
         send 200 (obj [
           ("success", VBool true);
           ("data", obj [
              ("transaction", obj [
                 ("orderId", orderId);
                 ("token", token);
                 ("payment_url", redirect_url)])])])
     end)
    (λ error,
       send 500 (obj [("success", VBool false);
                      ("error", VStr "Failed to create transaction")])).

(** ** routes/booking.js: the remaining routes *)

(** [`BOOK-${Date.now()}-${Math.random().toString(36).substring(7)}`]: the
    clock reading [now] and the random suffix are given. *)
Definition new_booking_id (now : Z) (suffix : string) : string :=
  "BOOK-" +:+ pretty now +:+ "-" +:+ suffix.

(** [router.post('/bookings', verifyToken, ...)] *)
Definition create_booking (now : Z) (suffix : string) (uid : string)
    (req_body : object) : js unit :=
  try_catch
    (let doctorId := field req_body "doctorId" in
     let patientId := field req_body "patientId" in
     let appointmentDate := field req_body "appointmentDate" in
     let appointmentTime := field req_body "appointmentTime" in
     let serviceType := field req_body "serviceType" in
     let notes := field req_body "notes" in
     (* Validate required fields *)
     if negb (truthy doctorId) || negb (truthy appointmentDate)
        || negb (truthy appointmentTime) || negb (truthy serviceType)
     then send 400 (obj [("success", VBool false);
                         ("error", VStr "Missing required fields")])
     else
     (* Generate unique booking ID *)
     let bookingId := new_booking_id now suffix in
     let booking := fields_of [
       ("bookingId", VStr bookingId);
       ("doctorId", doctorId);
       ("pasienId", js_or patientId (VStr uid));
       ("appointmentDate", appointmentDate);
       ("appointmentTime", appointmentTime);
       ("serviceType", serviceType);
       ("notes", notes);
       ("status", VStr "pending");
       ("paymentStatus", VStr "unpaid");
       ("createdAt", VServerTimestamp);
       ("updatedAt", VServerTimestamp)] in
     bookingRef ← doc Bookings (VStr bookingId);
     set bookingRef booking;;
     send 201 (obj [("success", VBool true); ("data", VObj booking)]))
    (λ error,
       send 500 (obj [("success", VBool false);
                      ("error", VStr "Failed to create booking")])).

(** [router.get('/bookings/:id', verifyToken, ...)] *)
Definition get_booking (uid : string) (id : string) : js unit :=
  try_catch
    (bookingRef ← doc Bookings (VStr id);
     bookingDoc ← get bookingRef;
     match bookingDoc with
     | None =>
         send 404 (obj [("success", VBool false);
                        ("error", VStr "Booking not found")])
     | Some booking =>
         (* Check if user has access to this booking *)
         if negb (is_str (field booking "pasienId") uid)
         then send 403 (obj [("success", VBool false);
                             ("error", VStr "Access denied")])
         else send 200 (obj [
                ("success", VBool true);
                ("data", VObj (booking ∪ fields_of [("id", VStr id)]))])
     end)
    (λ error,
       send 500 (obj [("success", VBool false);
                      ("error", VStr "Failed to get booking")])).

(** ** middleware/auth.js *)

(** [s.split(sep)] for a separator of one character or more: the pieces of
    [s] between the occurrences of [sep], found from left to right.  [skip]
    counts the characters of an occurrence still to pass, [piece] is the
    piece read so far. *)
Fixpoint split_from (sep s : string) (skip : nat) (piece : string)
    : list string :=
  match s with
  | EmptyString => [piece]
  | String c r =>
      match skip with
      | S k => split_from sep r k piece
      | O =>
          if String.prefix sep s
          then piece :: split_from sep r (String.length sep - 1) ""
          else split_from sep r 0 (piece +:+ String c "")
      end
  end.

Definition split (sep s : string) : list string := split_from sep s 0 "".

(** [req.headers.authorization?.split('Bearer ')[1]] *)
Definition bearer_token (authorization : option string) : value :=
  match authorization with
  | None => VUndef
  | Some header =>
      match split "Bearer " header with
      | _ :: token :: _ => VStr token
      | _ => VUndef
      end
  end.

(** What [admin.auth().verifyIdToken(token)] answers: the decoded token, of
    which the routes read the [uid], or a rejection. *)
Inductive verdict := Verified (uid : string) | Refused (e : exn).

(** [verifyToken]: ends with the [uid] of [req.user] when it calls [next()],
    and with the answer 401 otherwise. *)
Definition verifyToken (verifyIdToken : value → verdict)
    (authorization : option string) : js string :=
  try_catch
    (let token := bearer_token authorization in
     if negb (truthy token)
     then send 401 (obj [("error", VStr "No token provided")])
     else match verifyIdToken token with
          | Verified uid => mret uid
          | Refused e => throw e
          end)
    (λ error, send 401 (obj [("error", VStr "Invalid token")])).

(** A route behind [verifyToken]. *)
Definition authenticated (verifyIdToken : value → verdict)
    (authorization : option string) (route : string → js unit) : js unit :=
  uid ← verifyToken verifyIdToken authorization; route uid.

(** ** Vocabulary of the further statements *)

#[global] Instance collection_eq_dec : EqDecision collection.
Proof. solve_decision. Defined.

(** The fields that the reconciliation writes. *)
Definition reconciled_fields : list string :=
  ["paymentStatus"; "status"; "tagihanStatus"; "midtrans_status"; "updated_at"].

(** From store [d] to store [d'] no document has appeared or gone, and no
    field outside [fs] has changed in any document. *)
Definition changes_only (fs : list string) (d d' : firestore) : Prop :=
  ∀ c k,
    match coll d c !! k, coll d' c !! k with
    | Some x, Some x' => ∀ f, f ∉ fs → x' !! f = x !! f
    | None, None => True
    | _, _ => False
    end.

(** The store [d] at a later (or any other) server time. *)
Definition at_time (now : nat) (d : firestore) : firestore :=
  Firestore (ignoreUndefinedProperties d) now
    (transactions d) (orders d) (tagihan d) (bookings d).

(** Every run of [m] takes a world to a world related to it by [R]. *)
Definition preserves (R : relation world) {A} (m : js A) : Prop :=
  ∀ w w' out, m w = (w', out) → R w w'.

(** The store changes in the reconciled fields at most. *)
Definition reconciles_only : relation world :=
  λ w w', changes_only reconciled_fields (db w) (db w').

(** Nothing is written and no provider is called. *)
Definition untouched : relation world := λ w w', w' = w.

(** Nothing is written. *)
Definition same_store : relation world := λ w w', db w' = db w.

(** The store after a reconciliation of order [id] and booking [bid] to the
    statuses [st], [ps] and [bs] with provider payload [ms]: what the four
    updates of the batch make of it when the four records exist. *)
Definition reconciled (d : firestore) (id bid : string) (st ps bs : string)
    (ms : value) : firestore :=
  let write (data : list (string * value)) (cur : object) : object :=
    (stamp (serverTime d) <$> fields_of data) ∪ cur in
  Firestore (ignoreUndefinedProperties d) (serverTime d)
    (alter (write [("paymentStatus", VStr ps); ("status", VStr st);
                   ("tagihanStatus", VStr bs); ("midtrans_status", ms);
                   ("updated_at", VServerTimestamp)]) id (transactions d))
    (alter (write [("paymentStatus", VStr ps); ("status", VStr st);
                   ("updated_at", VServerTimestamp)]) id (orders d))
    (alter (write [("status", VStr bs); ("updated_at", VServerTimestamp)])
       id (tagihan d))
    (alter (write [("paymentStatus", VStr ps); ("status", VStr st);
                   ("tagihanStatus", VStr bs);
                   ("updated_at", VServerTimestamp)]) bid (bookings d)).

(** [sep] occurs in [s]. *)
Fixpoint occurs (sep s : string) : bool :=
  String.prefix sep s
  || match s with
     | String _ r => occurs sep r
     | EmptyString => false
     end.

(** A document id as the store takes them: one path segment, that is, not
    empty and without a slash, of 1500 bytes at most, not [.] or [..], and
    not of the form [__.*__]. *)
Definition is_document_id (s : string) : bool :=
  negb (String.eqb s "")
  && (String.length s <=? 1500)%nat
  && negb (occurs "/" s)
  && negb (String.eqb s ".") && negb (String.eqb s "..")
  && negb ((4 <=? String.length s)%nat
           && String.prefix "__" s
           && String.eqb (String.substring (String.length s - 2) 2 s) "__").

Definition document_id (s : string) : Prop := is_document_id s = true.

(** The records of an order at confirmed / Berhasil / Berhasil whose
    booking has been completed since. *)
Definition completed_db (id bid : string) : firestore :=
  set_coll (sample_db id bid "confirmed" "Berhasil" "Berhasil") Bookings
    {[ bid := fields_of [
         ("bookingId", VStr bid); ("pasienId", VStr "user-1");
         ("status", VStr "completed"); ("paymentStatus", VStr "Berhasil");
         ("tagihanStatus", VStr "Berhasil")] ]}.

(** [m] never ends without an answer or an exception. *)
Definition stops {A} (m : js A) : Prop :=
  ∀ w, match (m w).2 with Done _ => False | _ => True end.

(** [m] always ends with an answer. *)
Definition answers {A} (m : js A) : Prop :=
  ∀ w, ∃ w' r, m w = (w', Sent r).

(** The collections outside [cs] stay as they are. *)
Definition writes_in (cs : list collection) : relation world :=
  λ w w', ∀ c, c ∉ cs → coll (db w') c = coll (db w) c.

(** The records of the payments, and the records that are not transactions. *)
Definition payments (d : firestore)
    : gmap string object * gmap string object * gmap string object :=
  (transactions d, orders d, tagihan d).

Definition besides_transactions (d : firestore)
    : gmap string object * gmap string object * gmap string object :=
  (orders d, tagihan d, bookings d).

(** ** Lemmas on values and on the store *)

Lemma has_undefined_obj (m : object) :
  has_undefined (VObj m) = false
  ↔ map_Forall (λ _ v, has_undefined v = false) m.
Proof.
  change (has_undefined (VObj m))
    with (map_fold (λ (_ : string) x acc, has_undefined x || acc) false m).
  induction m as [|k v m Hk Hfold IH] using map_first_key_ind.
  - rewrite map_fold_empty. split; [intros _; apply map_Forall_empty | done].
  - rewrite map_fold_insert_first_key by done.
    rewrite map_Forall_insert by done.
    rewrite orb_false_iff, IH. done.
Qed.

Lemma has_undefined_field (m : object) k :
  has_undefined (VObj m) = false → truthy (field m k) = true →
  has_undefined (field m k) = false.
Proof.
  intros H Ht. unfold field in *. destruct (m !! k) as [v|] eqn:E.
  - exact (proj1 (has_undefined_obj m) H k v E).
  - discriminate.
Qed.

Lemma encode_defined d (data : object) :
  has_undefined (VObj data) = false →
  encode d data = Some (stamp (serverTime d) <$> data).
Proof. intros H. unfold encode. by rewrite H. Qed.

Ltac fields_defined :=
  apply has_undefined_obj; unfold fields_of; simpl;
  repeat (apply map_Forall_insert_2; [try done|]); try apply map_Forall_empty.

Ltac run := cbn -[fields_of has_undefined encode].

Ltac unfold_js :=
  unfold try_catch, transaction_notification, transaction_status,
    createTransaction, log_call, await, set, update, batch_update, encoded,
    get, put, delete_doc, send, throw, mbind, js_bind, mret, js_ret.

Lemma field_written now (data cur : object) k v :
  data !! k = Some v → field ((stamp now <$> data) ∪ cur) k = stamp now v.
Proof.
  intros H. unfold field. erewrite lookup_union_Some_l; [done|].
  by rewrite lookup_fmap, H.
Qed.

Lemma field_kept now (data cur : object) k :
  data !! k = None → field ((stamp now <$> data) ∪ cur) k = field cur k.
Proof.
  intros H. unfold field. rewrite lookup_union_r; [done|].
  by rewrite lookup_fmap, H.
Qed.

Lemma is_str_true v s : is_str v s = true ↔ v = VStr s.
Proof.
  destruct v; simpl; try (split; [discriminate | intros [=]]).
  rewrite String.eqb_eq. split; [by intros -> | by intros [= ->]].
Qed.

Lemma eqb_nonempty s : s ≠ "" → String.eqb s "" = false.
Proof. apply String.eqb_neq. Qed.

Lemma document_id_nonempty s : document_id s → s ≠ "".
Proof. intros H ->. discriminate H. Qed.

Lemma parseInt_defined v : has_undefined (parseInt v) = false.
Proof.
  assert (H : ∀ s, has_undefined (parse_int s) = false)
    by (intros s; unfold parse_int; repeat case_match; reflexivity).
  destruct v; try reflexivity; apply H.
Qed.

Lemma recognized_cases ts :
  recognized ts →
  ts = VStr "capture" ∨ ts = VStr "settlement" ∨ ts = VStr "pending"
  ∨ ts = VStr "cancel" ∨ ts = VStr "deny" ∨ ts = VStr "expire".
Proof.
  unfold recognized, includes. simpl.
  rewrite !orb_true_iff, !is_str_true. intuition discriminate.
Qed.

Lemma map_notification_strings ts l :
  recognized ts →
  ∃ st ps bs,
    map_notification ts l
    = Locals (VStr st) (VStr ps) (VStr bs) (isLocalStatus l).
Proof.
  intros H. apply recognized_cases in H.
  destruct H as [->|[->|[->|[->|[->| ->]]]]]; do 3 eexists; reflexivity.
Qed.

Lemma map_check_status_notification ts l :
  map_check_status ts l
  = Locals (status (map_notification ts l))
      (paymentStatus (map_notification ts l))
      (tagihanStatus (map_notification ts l)) false.
Proof.
  unfold map_check_status, map_notification.
  repeat (case_match; try reflexivity).
Qed.

(** ** The commit of the four updates *)

(** When the records exist and the mapped statuses are strings, the batch
    goes through and leaves them on the records. *)
Lemma update_all_commits w id bid st ps bs f ms :
  linked (db w) id bid → has_undefined ms = false →
  ∃ d', update_all (Transactions, id) (Orders, id) (Tagihan, id)
          (Bookings, bid) (Locals (VStr st) (VStr ps) (VStr bs) f) ms w
        = (World d' (calls w), Done ())
      ∧ linked d' id bid
      ∧ carries d' id bid (VStr st) (VStr ps) (VStr bs).
Proof.
  intros (Hid & Hbid & t & o & g & b & Ht & Ho & Hg & Hb & Hlink & Htok) Hms.
  eexists. split.
  { unfold update_all, batch_update, encoded, mbind, js_bind, mret, js_ret.
    rewrite !encode_defined by fields_defined.
    run. unfold batch_commit. run.
    rewrite Ht, Ho, Hg, Hb. run. unfold apply_update. run.
    rewrite Ht. run. rewrite Ho. run. rewrite Hg. run. rewrite Hb. run.
    reflexivity. }
  split.
  - split; [done|]. split; [done|]. run.
    do 4 eexists. rewrite !lookup_insert_eq.
    repeat split; try reflexivity.
    + rewrite field_kept by reflexivity. done.
    + rewrite field_kept by reflexivity. done.
  - do 4 eexists. run. rewrite !lookup_insert_eq.
    repeat split; try reflexivity; by erewrite field_written by reflexivity.
Qed.

(** All or nothing: the batch either ends normally, and then the four
    documents existed, or it throws and leaves the world as it was. *)
Lemma update_all_atomic r1 r2 r3 r4 l ms w :
  (∃ w', update_all r1 r2 r3 r4 l ms w = (w', Done ())
         ∧ Forall (λ r : ref, is_Some (coll (db w) r.1 !! r.2)) [r1; r2; r3; r4])
  ∨ (∃ e, update_all r1 r2 r3 r4 l ms w = (w, Thrown e)).
Proof.
  unfold update_all, batch_update, encoded, mbind, js_bind, mret, js_ret.
  repeat (match goal with
          | |- context [encode ?d ?o] => destruct (encode d o)
          end; run; [| by right; eexists]).
  unfold batch_commit. run.
  repeat match goal with
         | |- context [bool_decide ?P] => destruct (bool_decide_reflect P)
         end; run; try (by right; eexists).
  left. eexists. split; [reflexivity|].
  repeat constructor; assumption.
Qed.

(** ** The two paths on an order whose records exist *)

Lemma notification_reconciles p req_body w n id bid :
  snap_transaction_notification p req_body = Resolves (VObj n) →
  has_undefined (VObj n) = false →
  field n "order_id" = VStr id →
  recognized (field n "transaction_status") →
  linked (db w) id bid →
  ∃ d' t,
    notification p req_body w
    = (World d' (calls w ++ [NotificationCall req_body]), Sent ok_response)
    ∧ transactions (db w) !! id = Some t
    ∧ linked d' id bid
    ∧ let l := map_notification (field n "transaction_status")
                 (stored_locals t) in
      carries d' id bid (status l) (paymentStatus l) (tagihanStatus l).
Proof.
  intros Hp Hn Hid Hts Hl.
  pose proof Hl as (Hne & Hbne & t & o & g & b & Ht & Ho & Hg & Hb & Hlink & _).
  destruct (map_notification_strings _ (stored_locals t) Hts)
    as (st & ps & bs & Hmap).
  simpl in Hmap.
  destruct (update_all_commits
              (World (db w) (calls w ++ [NotificationCall req_body]))
              id bid st ps bs true (VObj n) Hl Hn)
    as (d' & Hrun & Hl' & Hc).
  exists d', t. split; [|split; [exact Ht|split; [exact Hl'|]]].
  - unfold notification. unfold_js.
    rewrite Hp. run. rewrite Hid. run. rewrite (eqb_nonempty _ Hne). run.
    rewrite Ht. run. rewrite Ho. run. rewrite Hlink. run.
    rewrite (eqb_nonempty _ Hbne). run.
    rewrite Hmap, Hrun. reflexivity.
  - run. rewrite Hmap. exact Hc.
Qed.

Lemma check_status_reconciles p w ms id bid :
  core_transaction_status p (VStr id) = Resolves (VObj ms) →
  has_undefined (VObj ms) = false →
  recognized (field ms "transaction_status") →
  linked (db w) id bid →
  ∃ d' t,
    transactions (db w) !! id = Some t
    ∧ let l := map_check_status (field ms "transaction_status")
                 (stored_locals t) in
      check_status p id w
      = (World d' (calls w ++ [StatusCall (VStr id)]),
         Sent (Response 200 (status_view id l d' bid)))
      ∧ linked d' id bid
      ∧ carries d' id bid (status l) (paymentStatus l) (tagihanStatus l).
Proof.
  intros Hp Hn Hts Hl.
  pose proof Hl as (Hne & Hbne & t & o & g & b & Ht & Ho & Hg & Hb & Hlink & Htok).
  pose proof (map_check_status_notification (field ms "transaction_status")
                (stored_locals t)) as Hmap.
  destruct (map_notification_strings _ (stored_locals t) Hts)
    as (st & ps & bs & Hmap').
  rewrite Hmap' in Hmap. simpl in Hmap. clear Hmap'.
  destruct (update_all_commits
              (World (db w) (calls w ++ [StatusCall (VStr id)]))
              id bid st ps bs false (VObj ms) Hl Hn)
    as (d' & Hrun & Hl' & Hc).
  exists d', t. split; [exact Ht|]. cbv zeta.
  split; [|rewrite Hmap; exact (conj Hl' Hc)].
  unfold check_status. unfold_js.
  run. rewrite (eqb_nonempty _ Hne). run.
  rewrite Ht. run. rewrite Ho. run. rewrite Hlink. run.
  rewrite (eqb_nonempty _ Hbne). run. rewrite Htok. run.
  rewrite Hp. run. rewrite Hmap, Hrun. reflexivity.
Qed.

(** Either path, on an order whose records exist, writes the mapped statuses
    and answers 200. *)
Lemma deliver_reconciles e id bid w ts :
  linked (db w) id bid → reports e id ts → recognized ts →
  ∃ w' r t,
    deliver e id w = (w', Sent r) ∧ status_code r = 200%nat
    ∧ transactions (db w) !! id = Some t
    ∧ linked (db w') id bid
    ∧ let l := map_notification ts (stored_locals t) in
      carries (db w') id bid (status l) (paymentStatus l) (tagihanStatus l).
Proof.
  intros Hl Hr Hts. destruct e as [p req_body|p]; simpl in Hr.
  - destruct Hr as (n & Hp & Hn & Hid & <-).
    destruct (notification_reconciles _ _ _ _ _ _ Hp Hn Hid Hts Hl)
      as (d' & t & Hrun & Ht & Hl' & Hc).
    eexists _, _, t. split; [exact Hrun|].
    split; [reflexivity|]. split; [exact Ht|]. split; [exact Hl'|exact Hc].
  - destruct Hr as (ms & Hp & Hn & <-).
    destruct (check_status_reconciles _ _ _ _ _ Hp Hn Hts Hl)
      as (d' & t & Ht & Hrun & Hl' & Hc).
    eexists _, _, t. split; [exact Hrun|].
    rewrite map_check_status_notification in Hc.
    split; [reflexivity|]. split; [exact Ht|]. split; [exact Hl'|exact Hc].
Qed.

(** ** The status mapping *)

(** The table of the mapping: on both paths it gives confirmed / Berhasil /
    Berhasil for capture and settlement, pending / unpaid / unpaid for
    pending, cancelled / failed / failed for cancel, deny and expire, and
    the three values it is given for any other status. *)
Lemma mapping_table ts l :
  triple (map_check_status ts l) = triple (map_notification ts l)
  ∧ (ts = VStr "capture" ∨ ts = VStr "settlement" →
     triple (map_notification ts l)
     = (VStr "confirmed", VStr "Berhasil", VStr "Berhasil"))
  ∧ (ts = VStr "pending" →
     triple (map_notification ts l)
     = (VStr "pending", VStr "unpaid", VStr "unpaid"))
  ∧ (ts = VStr "cancel" ∨ ts = VStr "deny" ∨ ts = VStr "expire" →
     triple (map_notification ts l)
     = (VStr "cancelled", VStr "failed", VStr "failed"))
  ∧ (¬ recognized ts → triple (map_notification ts l) = triple l).
Proof.
  split; [by rewrite map_check_status_notification|].
  split; [by intros [-> | ->]|].
  split; [by intros ->|].
  split; [by intros [-> | [-> | ->]]|].
  intros Hn. unfold recognized, includes in Hn. simpl in Hn.
  unfold map_notification, includes. simpl.
  destruct (is_str ts "capture"), (is_str ts "settlement"),
    (is_str ts "pending"), (is_str ts "cancel"), (is_str ts "deny"),
    (is_str ts "expire"); simpl in *; congruence.
Qed.

(** ** Monotonicity *)

(** C1, as the code has it: a reconciliation with provider status pending
    writes pending / unpaid on the records whatever they held.  After
    pending and then expire the records are at cancelled / failed, and a
    later pending, by either path, puts them back to pending / unpaid. *)
Theorem pending_overwrites_terminal e1 e2 e3 id bid w :
  linked (db w) id bid →
  reports e1 id (VStr "pending") →
  reports e2 id (VStr "expire") →
  reports e3 id (VStr "pending") →
  ∃ w1 w2 w3 r1 r2 r3,
    deliver e1 id w = (w1, Sent r1)
    ∧ deliver e2 id w1 = (w2, Sent r2)
    ∧ carries (db w2) id bid (VStr "cancelled") (VStr "failed") (VStr "failed")
    ∧ deliver e3 id w2 = (w3, Sent r3)
    ∧ carries (db w3) id bid (VStr "pending") (VStr "unpaid") (VStr "unpaid").
Proof.
  intros Hl H1 H2 H3.
  destruct (deliver_reconciles e1 id bid w _ Hl H1 eq_refl)
    as (w1 & r1 & t1 & Hrun1 & _ & _ & Hl1 & _).
  destruct (deliver_reconciles e2 id bid w1 _ Hl1 H2 eq_refl)
    as (w2 & r2 & t2 & Hrun2 & _ & _ & Hl2 & Hc2).
  destruct (deliver_reconciles e3 id bid w2 _ Hl2 H3 eq_refl)
    as (w3 & r3 & t3 & Hrun3 & _ & _ & _ & Hc3).
  exists w1, w2, w3, r1, r2, r3.
  split; [exact Hrun1|]. split; [exact Hrun2|]. split; [exact Hc2|].
  split; [exact Hrun3|exact Hc3].
Qed.

Lemma sample_linked id bid st ps bs :
  id ≠ "" → bid ≠ "" → linked (sample_db id bid st ps bs) id bid.
Proof.
  intros Hid Hbid. split; [exact Hid|]. split; [exact Hbid|].
  do 4 eexists. simpl. rewrite !lookup_singleton_eq.
  repeat split; reflexivity.
Qed.

Lemma reporting_reports_webhook id ts req_body :
  reports (Webhook (reporting id ts) req_body) id (VStr ts).
Proof. eexists. repeat split; reflexivity. Qed.

Lemma reporting_reports_poll id ts :
  reports (Poll (reporting id ts)) id (VStr ts).
Proof. eexists. repeat split; reflexivity. Qed.

Lemma pending_overwrites_terminal_witness :
  ∃ w1 w2 w3 r1 r2 r3,
    deliver (Webhook (reporting "ORD-2" "pending") VNull) "ORD-2"
      (World (sample_db "ORD-2" "B-2" "pending" "unpaid" "unpaid") [])
    = (w1, Sent r1)
    ∧ deliver (Webhook (reporting "ORD-2" "expire") VNull) "ORD-2" w1
      = (w2, Sent r2)
    ∧ carries (db w2) "ORD-2" "B-2"
        (VStr "cancelled") (VStr "failed") (VStr "failed")
    ∧ deliver (Poll (reporting "ORD-2" "pending")) "ORD-2" w2 = (w3, Sent r3)
    ∧ carries (db w3) "ORD-2" "B-2"
        (VStr "pending") (VStr "unpaid") (VStr "unpaid").
Proof.
  apply (pending_overwrites_terminal
           (Webhook (reporting "ORD-2" "pending") VNull)
           (Webhook (reporting "ORD-2" "expire") VNull)
           (Poll (reporting "ORD-2" "pending")) "ORD-2" "B-2").
  - apply sample_linked; discriminate.
  - apply reporting_reports_webhook.
  - apply reporting_reports_webhook.
  - apply reporting_reports_poll.
Defined.

(** C1, as stated, fails: on records at cancelled / failed, a webhook and a
    poll that report pending both answer 200 and leave the records at
    pending / unpaid. *)
Lemma stale_pending_reverts :
  let w := World (sample_db "ORD-2" "B-2" "cancelled" "failed" "failed") [] in
  let hook := notification (reporting "ORD-2" "pending") VNull w in
  let poll := check_status (reporting "ORD-2" "pending") "ORD-2" w in
  carries (db w) "ORD-2" "B-2" (VStr "cancelled") (VStr "failed") (VStr "failed")
  ∧ hook.2 = Sent ok_response
  ∧ carries (db hook.1) "ORD-2" "B-2"
      (VStr "pending") (VStr "unpaid") (VStr "unpaid")
  ∧ carries (db poll.1) "ORD-2" "B-2"
      (VStr "pending") (VStr "unpaid") (VStr "unpaid").
Proof.
  cbv zeta. split; [|split; [|split]].
  - do 4 eexists. repeat split; vm_compute; reflexivity.
  - vm_compute. reflexivity.
  - do 4 eexists. repeat split; vm_compute; reflexivity.
  - do 4 eexists. repeat split; vm_compute; reflexivity.
Qed.

(** ** Agreement of the four records *)




(** ** The status mapping on the records *)

(** The webhook on an order whose records exist, when the mapping gives
    strings: the batch goes through. *)
Lemma notification_maps p req_body w n id bid t st ps bs :
  snap_transaction_notification p req_body = Resolves (VObj n) →
  has_undefined (VObj n) = false →
  field n "order_id" = VStr id →
  linked (db w) id bid →
  transactions (db w) !! id = Some t →
  map_notification (field n "transaction_status") (stored_locals t)
  = Locals (VStr st) (VStr ps) (VStr bs) true →
  ∃ d',
    notification p req_body w
    = (World d' (calls w ++ [NotificationCall req_body]), Sent ok_response)
    ∧ carries d' id bid (VStr st) (VStr ps) (VStr bs).
Proof.
  intros Hp Hn Hid Hl Ht Hmap.
  pose proof Hl as (Hne & Hbne & t' & o & g & b & Ht' & Ho & Hg & Hb & Hlink & _).
  assert (t' = t) as -> by congruence.
  destruct (update_all_commits
              (World (db w) (calls w ++ [NotificationCall req_body]))
              id bid st ps bs true (VObj n) Hl Hn)
    as (d' & Hrun & _ & Hc).
  exists d'. split; [|exact Hc].
  unfold notification. unfold_js.
  rewrite Hp. run. rewrite Hid. run. rewrite (eqb_nonempty _ Hne). run.
  rewrite Ht. run. rewrite Ho. run. rewrite Hlink. run.
  rewrite (eqb_nonempty _ Hbne). run.
  rewrite Hmap, Hrun. reflexivity.
Qed.

(** The same for the status check. *)
Lemma check_status_maps p w ms id bid t st ps bs :
  core_transaction_status p (VStr id) = Resolves (VObj ms) →
  has_undefined (VObj ms) = false →
  linked (db w) id bid →
  transactions (db w) !! id = Some t →
  map_check_status (field ms "transaction_status") (stored_locals t)
  = Locals (VStr st) (VStr ps) (VStr bs) false →
  ∃ d' r,
    check_status p id w
    = (World d' (calls w ++ [StatusCall (VStr id)]), Sent r)
    ∧ status_code r = 200%nat
    ∧ carries d' id bid (VStr st) (VStr ps) (VStr bs).
Proof.
  intros Hp Hn Hl Ht Hmap.
  pose proof Hl as (Hne & Hbne & t' & o & g & b & Ht' & Ho & Hg & Hb & Hlink & Htok).
  assert (t' = t) as -> by congruence.
  destruct (update_all_commits
              (World (db w) (calls w ++ [StatusCall (VStr id)]))
              id bid st ps bs false (VObj ms) Hl Hn)
    as (d' & Hrun & _ & Hc).
  exists d'. eexists. split; [|split; [|exact Hc]].
  - unfold check_status. unfold_js.
    run. rewrite (eqb_nonempty _ Hne). run.
    rewrite Ht. run. rewrite Ho. run. rewrite Hlink. run.
    rewrite (eqb_nonempty _ Hbne). run. rewrite Htok. run.
    rewrite Hp. run. rewrite Hmap, Hrun. reflexivity.
  - reflexivity.
Qed.

Lemma unrecognized_kept ts l :
  ¬ recognized ts →
  map_notification ts l = l
  ∧ map_check_status ts l
    = Locals (status l) (paymentStatus l) (tagihanStatus l) false.
Proof.
  intros Hn. unfold recognized, includes in Hn. simpl in Hn.
  unfold map_notification, map_check_status, includes. simpl.
  destruct (is_str ts "capture"), (is_str ts "settlement"),
    (is_str ts "pending"), (is_str ts "cancel"), (is_str ts "deny"),
    (is_str ts "expire"); simpl in *; try congruence; by destruct l.
Qed.

(** Either path, on an order whose records exist, when the mapping of the
    reported status gives the strings [st], [ps] and [bs]. *)
Lemma deliver_maps e id bid w ts t st ps bs :
  linked (db w) id bid → reports e id ts →
  transactions (db w) !! id = Some t →
  triple (map_notification ts (stored_locals t)) = (VStr st, VStr ps, VStr bs) →
  ∃ w' r,
    deliver e id w = (w', Sent r) ∧ status_code r = 200%nat
    ∧ carries (db w') id bid (VStr st) (VStr ps) (VStr bs).
Proof.
  intros Hl Hr Ht Hmap. destruct e as [p req_body|p]; simpl in Hr.
  - destruct Hr as (n & Hp & Hn & Hid & <-).
    destruct (notification_maps p req_body w n id bid t st ps bs
                Hp Hn Hid Hl Ht) as (d' & Hrun & Hc).
    { destruct (map_notification _ _) as [a b c f] eqn:E.
      assert (f = true) as ->.
      { unfold map_notification in E. repeat case_match; by inversion E. }
      unfold triple in Hmap. simpl in Hmap. congruence. }
    eexists _, _. split; [exact Hrun|]. split; [reflexivity|exact Hc].
  - destruct Hr as (ms & Hp & Hn & <-).
    destruct (check_status_maps p w ms id bid t st ps bs Hp Hn Hl Ht)
      as (d' & r & Hrun & Hcode & Hc).
    { rewrite map_check_status_notification.
      unfold triple in Hmap. by injection Hmap as -> -> ->. }
    eexists _, _. split; [exact Hrun|]. split; [exact Hcode|exact Hc].
Qed.

(** A batch whose first update holds an undefined status is refused by a
    store that takes no undefined value, before anything is written. *)
Lemma update_all_refused r1 r2 r3 r4 l ms w :
  ignoreUndefinedProperties (db w) = false →
  status l = VUndef ∨ paymentStatus l = VUndef ∨ tagihanStatus l = VUndef →
  ∃ e, update_all r1 r2 r3 r4 l ms w = (w, Thrown e).
Proof.
  intros Hflag H.
  unfold update_all, batch_update, encoded, mbind, js_bind.
  assert (encode (db w) (fields_of [
            ("paymentStatus", paymentStatus l);
            ("status", status l);
            ("tagihanStatus", tagihanStatus l);
            ("midtrans_status", ms);
            ("updated_at", VServerTimestamp)]) = None) as ->.
  { unfold encode. rewrite Hflag.
    destruct (has_undefined (VObj _)) eqn:E; [reflexivity|]. exfalso.
    pose proof (proj1 (has_undefined_obj _) E) as HF.
    destruct H as [H|[H|H]].
    - pose proof (HF "status" (status l) eq_refl) as H'.
      rewrite H in H'. discriminate H'.
    - pose proof (HF "paymentStatus" (paymentStatus l) eq_refl) as H'.
      rewrite H in H'. discriminate H'.
    - pose proof (HF "tagihanStatus" (tagihanStatus l) eq_refl) as H'.
      rewrite H in H'. discriminate H'. }
  by eexists.
Qed.

Ltac batch_refused Hflag H :=
  match goal with
  | |- context [update_all ?r1 ?r2 ?r3 ?r4 ?l ?ms ?w0] =>
      let e := fresh "e" in
      let He := fresh "He" in
      destruct (update_all_refused r1 r2 r3 r4 l ms w0 Hflag H) as [e He];
      rewrite He
  end.

(** Either path, on an order whose records exist, for a status outside the
    table when the transaction record lacks one of the three values: the
    batch is refused and nothing is written; the webhook answers 500 and
    the status check 200. *)
Lemma deliver_refused e id bid w ts t :
  linked (db w) id bid → reports e id ts →
  transactions (db w) !! id = Some t →
  ¬ recognized ts →
  field t "status" = VUndef ∨ field t "paymentStatus" = VUndef
  ∨ field t "tagihanStatus" = VUndef →
  ignoreUndefinedProperties (db w) = false →
  ∃ w' r,
    deliver e id w = (w', Sent r) ∧ db w' = db w
    ∧ status_code r = match e with
                      | Webhook _ _ => 500%nat
                      | Poll _ => 200%nat
                      end.
Proof.
  intros Hl Hr Ht Hts Hmiss Hflag.
  pose proof Hl as (Hne & Hbne & t' & o & g & b & Ht' & Ho & Hg & Hb & Hlink & Htok).
  assert (t' = t) as -> by congruence.
  destruct (unrecognized_kept ts (stored_locals t) Hts) as [Hhook Hpoll].
  destruct e as [p req_body|p]; simpl in Hr.
  - destruct Hr as (n & Hp & Hn & Hid & <-).
    unfold deliver, notification. unfold_js.
    rewrite Hp. run. rewrite Hid. run. rewrite (eqb_nonempty _ Hne). run.
    rewrite Ht. run. rewrite Ho. run. rewrite Hlink. run.
    rewrite (eqb_nonempty _ Hbne). run. rewrite Hhook.
    batch_refused Hflag Hmiss. run.
    eexists _, _. split; [reflexivity|]. split; reflexivity.
  - destruct Hr as (ms & Hp & Hn & <-).
    unfold deliver, check_status. unfold_js. run.
    rewrite (eqb_nonempty _ Hne). run.
    rewrite Ht. run. rewrite Ho. run. rewrite Hlink. run.
    rewrite (eqb_nonempty _ Hbne). run. rewrite Htok. run.
    rewrite Hp. run. rewrite Hpoll.
    batch_refused Hflag Hmiss. run.
    eexists _, _. split; [reflexivity|]. split; reflexivity.
Qed.

(** C3, as the code has it.  On an order whose records exist, both paths
    write for capture and settlement confirmed / Berhasil / Berhasil, for
    pending pending / unpaid / unpaid, for cancel, deny and expire
    cancelled / failed / failed.  For any other status they write the three
    values stored on the transaction record, when these are strings: the
    transaction keeps them, and the order, the billing statement and the
    booking get them in the place of their own.  When the transaction
    record lacks one of the three, a store that takes no undefined value
    refuses the batch: nothing is written, the webhook answers 500 and the
    status check 200. *)
Theorem status_mapping_table e id bid w ts t :
  linked (db w) id bid → reports e id ts →
  transactions (db w) !! id = Some t →
  (recognized ts →
   ∃ w' r st ps bs,
     deliver e id w = (w', Sent r) ∧ status_code r = 200%nat
     ∧ carries (db w') id bid st ps bs
     ∧ (ts = VStr "capture" ∨ ts = VStr "settlement" →
        (st, ps, bs) = (VStr "confirmed", VStr "Berhasil", VStr "Berhasil"))
     ∧ (ts = VStr "pending" →
        (st, ps, bs) = (VStr "pending", VStr "unpaid", VStr "unpaid"))
     ∧ (ts = VStr "cancel" ∨ ts = VStr "deny" ∨ ts = VStr "expire" →
        (st, ps, bs) = (VStr "cancelled", VStr "failed", VStr "failed")))
  ∧ (¬ recognized ts →
     ∀ st0 ps0 bs0 : string,
       (field t "status", field t "paymentStatus", field t "tagihanStatus")
       = (VStr st0, VStr ps0, VStr bs0) →
       ∃ w' r,
         deliver e id w = (w', Sent r) ∧ status_code r = 200%nat
         ∧ carries (db w') id bid (VStr st0) (VStr ps0) (VStr bs0))
  ∧ (¬ recognized ts →
     field t "status" = VUndef ∨ field t "paymentStatus" = VUndef
     ∨ field t "tagihanStatus" = VUndef →
     ignoreUndefinedProperties (db w) = false →
     ∃ w' r,
       deliver e id w = (w', Sent r) ∧ db w' = db w
       ∧ status_code r = match e with
                         | Webhook _ _ => 500%nat
                         | Poll _ => 200%nat
                         end).
Proof.
  intros Hl Hr Ht. split; [|split].
  - intros Hts.
    destruct (map_notification_strings ts (stored_locals t) Hts)
      as (st & ps & bs & Hmap).
    destruct (deliver_maps e id bid w ts t st ps bs Hl Hr Ht)
      as (w' & r & Hrun & Hcode & Hc); [by rewrite Hmap|].
    exists w', r, (VStr st), (VStr ps), (VStr bs).
    split; [exact Hrun|]. split; [exact Hcode|]. split; [exact Hc|].
    split; [|split].
    + intros [-> | ->]; by injection Hmap as <- <- <-.
    + intros ->. by injection Hmap as <- <- <-.
    + intros [-> | [-> | ->]]; by injection Hmap as <- <- <-.
  - intros Hts st0 ps0 bs0 Hstored.
    apply (deliver_maps e id bid w ts t st0 ps0 bs0 Hl Hr Ht).
    rewrite (proj1 (unrecognized_kept ts _ Hts)). exact Hstored.
  - intros Hts Hmiss Hflag.
    exact (deliver_refused e id bid w ts t Hl Hr Ht Hts Hmiss Hflag).
Qed.

Lemma completed_linked id bid :
  id ≠ "" → bid ≠ "" → linked (completed_db id bid) id bid.
Proof.
  intros Hid Hbid. split; [exact Hid|]. split; [exact Hbid|].
  do 4 eexists. simpl. rewrite !lookup_singleton_eq.
  repeat split; reflexivity.
Qed.

Lemma status_mapping_table_witness :
  ∃ w' r,
    deliver (Webhook (reporting "ORD-3" "refund") VNull) "ORD-3"
      (World (completed_db "ORD-3" "B-3") [])
    = (w', Sent r) ∧ status_code r = 200%nat
    ∧ carries (db w') "ORD-3" "B-3"
        (VStr "confirmed") (VStr "Berhasil") (VStr "Berhasil").
Proof.
  eapply (proj1 (proj2 (status_mapping_table
                   (Webhook (reporting "ORD-3" "refund") VNull) "ORD-3" "B-3"
                   (World (completed_db "ORD-3" "B-3") []) (VStr "refund") _
                   (completed_linked "ORD-3" "B-3" ltac:(discriminate)
                      ltac:(discriminate))
                   (reporting_reports_webhook "ORD-3" "refund" VNull)
                   eq_refl))).
  - intros H. discriminate H.
  - reflexivity.
Defined.

(** C3, as stated, fails twice.  After a settlement the payment status and
    the billing status are Berhasil and not success.  And a status outside
    the table does not leave the records as they were: after a refund
    notification the completed booking is back at confirmed, the status of
    the transaction record. *)
Lemma mapping_differs_from_table :
  let w := World (sample_db "ORD-3" "B-3" "pending" "unpaid" "unpaid") [] in
  let hook := notification (reporting "ORD-3" "settlement") VNull w in
  let poll := check_status (reporting "ORD-3" "settlement") "ORD-3" w in
  let w0 := World (completed_db "ORD-3" "B-3") [] in
  let hook0 := notification (reporting "ORD-3" "refund") VNull w0 in
  let poll0 := check_status (reporting "ORD-3" "refund") "ORD-3" w0 in
  let booking_status (v : world) :=
    member (data_or_null (bookings (db v) !! "B-3")) "status" in
  carries (db hook.1) "ORD-3" "B-3"
    (VStr "confirmed") (VStr "Berhasil") (VStr "Berhasil")
  ∧ carries (db poll.1) "ORD-3" "B-3"
      (VStr "confirmed") (VStr "Berhasil") (VStr "Berhasil")
  ∧ booking_status w0 = VStr "completed"
  ∧ hook0.2 = Sent ok_response
  ∧ booking_status hook0.1 = VStr "confirmed"
  ∧ booking_status poll0.1 = VStr "confirmed".
Proof.
  cbv zeta. split; [|split; [|split; [|split; [|split]]]].
  - do 4 eexists. repeat split; vm_compute; reflexivity.
  - do 4 eexists. repeat split; vm_compute; reflexivity.
  - vm_compute. reflexivity.
  - vm_compute. reflexivity.
  - vm_compute. reflexivity.
  - vm_compute. reflexivity.
Qed.

(** ** Missing records *)

Lemma update_all_missing_booking r1 r2 r3 bid l ms w :
  bookings (db w) !! bid = None →
  ∃ e, update_all r1 r2 r3 (Bookings, bid) l ms w = (w, Thrown e).
Proof.
  intros Hb.
  destruct (update_all_atomic r1 r2 r3 (Bookings, bid) l ms w)
    as [(w' & _ & HF)|He]; [|exact He].
  exfalso. do 3 apply Forall_cons in HF as [_ HF].
  apply Forall_cons in HF as [[x Hx] _]. simpl in Hx. congruence.
Qed.

Ltac booking_fails Hb :=
  match goal with
  | |- context [update_all ?r1 ?r2 ?r3 (Bookings, ?bid) ?l ?ms ?w0] =>
      let e := fresh "e" in
      let He := fresh "He" in
      destruct (update_all_missing_booking r1 r2 r3 bid l ms w0 Hb) as [e He];
      rewrite He; clear He
  end.

(** C7, as the code has it, for an order id and a booking id that are
    document ids: when the transaction, the order or the booking is absent,
    no record is written.  The status check answers 404
    Transaction not found and 404 Order not found, and answers 200 with the
    stored or mapped statuses when only the booking is absent; the webhook
    answers 404 Order not found, and the same 500 Failed to process
    notification for an absent transaction and for an absent booking. *)
Theorem missing_record_aborts p w id :
  document_id id →
  (transactions (db w) !! id = None →
   check_status p id w
   = (w, Sent (error_response 404 "Transaction not found")))
  ∧ (is_Some (transactions (db w) !! id) → orders (db w) !! id = None →
     check_status p id w = (w, Sent (error_response 404 "Order not found")))
  ∧ (∀ o bid,
       is_Some (transactions (db w) !! id) → orders (db w) !! id = Some o →
       field o "bookingId" = VStr bid → document_id bid →
       bookings (db w) !! bid = None →
       ∃ w' l,
         check_status p id w
         = (w', Sent (Response 200 (status_view id l (db w) bid)))
         ∧ db w' = db w)
  ∧ ∀ req_body n,
      snap_transaction_notification p req_body = Resolves (VObj n) →
      field n "order_id" = VStr id →
      let w1 := World (db w) (calls w ++ [NotificationCall req_body]) in
      (transactions (db w) !! id = None →
       notification p req_body w
       = (w1, Sent (error_response 500 "Failed to process notification")))
      ∧ (is_Some (transactions (db w) !! id) → orders (db w) !! id = None →
         notification p req_body w
         = (w1, Sent (error_response 404 "Order not found")))
      ∧ (∀ o bid,
           is_Some (transactions (db w) !! id) → orders (db w) !! id = Some o →
           field o "bookingId" = VStr bid → document_id bid →
           bookings (db w) !! bid = None →
           notification p req_body w
           = (w1, Sent (error_response 500 "Failed to process notification"))).
Proof.
  intros Hne%document_id_nonempty. split; [|split; [|split]].
  - intros Ht. unfold check_status. unfold_js. run.
    rewrite (eqb_nonempty _ Hne). run. rewrite Ht. destruct w; reflexivity.
  - intros [t Ht] Ho. unfold check_status. unfold_js. run.
    rewrite (eqb_nonempty _ Hne). run. rewrite Ht. run. rewrite Ho.
    destruct w; reflexivity.
  - intros o bid [t Ht] Ho Hlink Hbne%document_id_nonempty Hb.
    unfold check_status. unfold_js. run.
    rewrite (eqb_nonempty _ Hne). run. rewrite Ht. run. rewrite Ho. run.
    rewrite Hlink. run. rewrite (eqb_nonempty _ Hbne). run.
    destruct (truthy (field t "snap_token")); run.
    + destruct (core_transaction_status p (VStr id)) as [ms|e]; run.
      * destruct ms as [| | b0 | n0 | | s0 | | t0 | l0 | fs]; run;
          try booking_fails Hb; run.
        1, 2: by eexists _, (stored_locals t).
        1, 2, 3, 4, 5, 6, 7:
          by eexists _, (map_check_status VUndef (stored_locals t)).
        by eexists _, (map_check_status (field fs "transaction_status")
                         (stored_locals t)).
      * by eexists _, (stored_locals t).
    + destruct w. by eexists _, (stored_locals t).
  - intros req_body n Hp Hid w1. subst w1. split; [|split].
    + intros Ht. unfold notification. unfold_js.
      rewrite Hp. run. rewrite Hid. run. rewrite (eqb_nonempty _ Hne). run.
      rewrite Ht. reflexivity.
    + intros [t Ht] Ho. unfold notification. unfold_js.
      rewrite Hp. run. rewrite Hid. run. rewrite (eqb_nonempty _ Hne). run.
      rewrite Ht. run. rewrite Ho. reflexivity.
    + intros o bid [t Ht] Ho Hlink _ Hb. unfold notification. unfold_js.
      rewrite Hp. run. rewrite Hid. run. rewrite (eqb_nonempty _ Hne). run.
      rewrite Ht. run. rewrite Ho. run. rewrite Hlink. run.
      destruct (String.eqb bid ""); run; [reflexivity|].
      booking_fails Hb. reflexivity.
Qed.

Lemma missing_record_aborts_witness :
  let p := reporting "ORD-3" "settlement" in
  let w := World (without Transactions
                    (sample_db "ORD-3" "B-3" "pending" "unpaid" "unpaid")) [] in
  check_status p "ORD-3" w
  = (w, Sent (error_response 404 "Transaction not found"))
  ∧ notification p VNull w
    = (World (db w) [NotificationCall VNull],
       Sent (error_response 500 "Failed to process notification")).
Proof.
  cbv zeta.
  destruct (missing_record_aborts (reporting "ORD-3" "settlement")
              (World (without Transactions
                        (sample_db "ORD-3" "B-3" "pending" "unpaid" "unpaid"))
                 [])
              "ORD-3") as (Hpoll & _ & _ & Hhook); [reflexivity|].
  split.
  - exact (Hpoll eq_refl).
  - exact (proj1 (Hhook VNull _ eq_refl eq_refl) eq_refl).
Defined.

(** C7, as stated, fails: the webhook gives one and the same answer when the
    transaction is absent and when the booking is absent, and the status
    check reports no error for an absent booking. *)
Lemma missing_booking_not_distinguished :
  let p := reporting "ORD-3" "settlement" in
  let d := sample_db "ORD-3" "B-3" "pending" "unpaid" "unpaid" in
  (notification p VNull (World (without Transactions d) [])).2
  = (notification p VNull (World (without Bookings d) [])).2
  ∧ ∃ r, (check_status p "ORD-3" (World (without Bookings d) [])).2 = Sent r
         ∧ status_code r = 200%nat
         ∧ member (body r) "success" = VBool true.
Proof.
  cbv zeta. split; [vm_compute; reflexivity|].
  eexists. split; [vm_compute; reflexivity|]. split; reflexivity.
Qed.

(** ** The answer of the status check *)

(** C8, as the code has it: after a status check has committed a recognized
    status, the answer holds the order, the billing statement and the
    booking as read from the store after the commit; its transaction part is
    built from the local variables (the order id, the mapped status, payment
    status and billing status, and the flag isLocalStatus at false), which
    are the values just written on the four records. *)
Theorem check_status_answer p w ms id bid :
  core_transaction_status p (VStr id) = Resolves (VObj ms) →
  has_undefined (VObj ms) = false →
  recognized (field ms "transaction_status") →
  linked (db w) id bid →
  ∃ w' t,
    transactions (db w) !! id = Some t
    ∧ let l := map_check_status (field ms "transaction_status")
                 (stored_locals t) in
      check_status p id w
      = (w', Sent (Response 200 (status_view id l (db w') bid)))
      ∧ isLocalStatus l = false
      ∧ carries (db w') id bid (status l) (paymentStatus l) (tagihanStatus l).
Proof.
  intros Hp Hn Hts Hl.
  destruct (check_status_reconciles p w ms id bid Hp Hn Hts Hl)
    as (d' & t & Ht & Hrun & _ & Hc).
  eexists _, t. split; [exact Ht|]. cbv zeta in *.
  split; [exact Hrun|]. split; [|exact Hc].
  rewrite map_check_status_notification. reflexivity.
Qed.

Lemma check_status_answer_witness :
  ∃ w' t,
    transactions (sample_db "ORD-1" "B-1" "pending" "unpaid" "unpaid")
      !! "ORD-1" = Some t
    ∧ let l := map_check_status (VStr "settlement") (stored_locals t) in
      check_status (reporting "ORD-1" "settlement") "ORD-1"
        (World (sample_db "ORD-1" "B-1" "pending" "unpaid" "unpaid") [])
      = (w', Sent (Response 200 (status_view "ORD-1" l (db w') "B-1")))
      ∧ isLocalStatus l = false
      ∧ carries (db w') "ORD-1" "B-1"
          (status l) (paymentStatus l) (tagihanStatus l).
Proof.
  apply (check_status_answer (reporting "ORD-1" "settlement")
           (World (sample_db "ORD-1" "B-1" "pending" "unpaid" "unpaid") [])
           (fields_of [("order_id", VStr "ORD-1");
                       ("transaction_status", VStr "settlement")])
           "ORD-1" "B-1").
  - reflexivity.
  - reflexivity.
  - reflexivity.
  - apply sample_linked; discriminate.
Defined.

(** C8, as stated, fails: the transaction part of the answer is not the
    transaction record of the store after the commit (the record has a
    token, the answer has none). *)
Lemma transaction_part_is_not_the_record :
  let run := check_status (reporting "ORD-1" "settlement") "ORD-1"
               (World (sample_db "ORD-1" "B-1" "pending" "unpaid" "unpaid") [])
  in
  ∃ r, run.2 = Sent r
       ∧ member (member (body r) "data") "transaction"
         ≠ data_or_null (transactions (db run.1) !! "ORD-1").
Proof.
  cbv zeta. eexists. split; [vm_compute; reflexivity|].
  intros H. apply (f_equal (λ v, member v "snap_token")) in H.
  vm_compute in H. discriminate.
Qed.

(** ** A transaction without a token *)

Lemma doc_cases c v w :
  (∃ s, v = VStr s ∧ s ≠ "" ∧ doc c v w = (w, Done (c, s)))
  ∨ (∃ e, doc c v w = (w, Thrown e)).
Proof.
  destruct v as [| | | | |s| | | |]; try (by right; eexists).
  unfold doc. destruct (String.eqb_spec s ""); [by right; eexists|].
  left. by exists s.
Qed.

(** C9, as the code has it: the status check of an order whose transaction
    record has no token calls the provider not at all and writes nothing,
    whatever it answers.  It answers 404 when the order is absent.  When
    the order exists and names a booking by a document id, the answer is
    the stored state: the status, payment status and billing status of the
    transaction record with isLocalStatus at true, and the order, billing
    statement and booking as stored.  When the booking id of the order is
    not a non-empty string, the answer is 500. *)
Theorem check_status_without_token p w id t :
  transactions (db w) !! id = Some t →
  truthy (field t "snap_token") = false →
  (∃ r, check_status p id w = (w, Sent r))
  ∧ (id ≠ "" → orders (db w) !! id = None →
     check_status p id w = (w, Sent (error_response 404 "Order not found")))
  ∧ (∀ o bid,
       id ≠ "" → orders (db w) !! id = Some o →
       field o "bookingId" = VStr bid → document_id bid →
       check_status p id w
       = (w, Sent (Response 200
                     (status_view id
                        (Locals (field t "status") (field t "paymentStatus")
                           (field t "tagihanStatus") true)
                        (db w) bid))))
  ∧ ∀ o,
      id ≠ "" → orders (db w) !! id = Some o →
      (∀ bid, field o "bookingId" = VStr bid → bid = "") →
      check_status p id w
      = (w, Sent (error_response 500 "Failed to check status")).
Proof.
  intros Ht Htok. split; [|split; [|split]].
  - unfold check_status. unfold_js. run.
    destruct (String.eqb id ""); run; [by destruct w; eexists|].
    rewrite Ht. run.
    destruct (orders (db w) !! id) as [o|]; run; [|by destruct w; eexists].
    destruct (doc_cases Bookings (field o "bookingId") w)
      as [(s & _ & _ & Hdoc)|(e & Hdoc)]; rewrite Hdoc; run;
      [|by destruct w; eexists].
    rewrite Htok. run. by destruct w; eexists.
  - intros Hne Ho. unfold check_status. unfold_js. run.
    rewrite (eqb_nonempty _ Hne). run. rewrite Ht. run. rewrite Ho.
    by destruct w.
  - intros o bid Hne Ho Hlink Hbne%document_id_nonempty.
    unfold check_status. unfold_js. run.
    rewrite (eqb_nonempty _ Hne). run. rewrite Ht. run. rewrite Ho. run.
    rewrite Hlink. run. rewrite (eqb_nonempty _ Hbne). run. rewrite Htok.
    run. unfold status_view. rewrite Ho. reflexivity.
  - intros o Hne Ho Hbid. unfold check_status. unfold_js. run.
    rewrite (eqb_nonempty _ Hne). run. rewrite Ht. run. rewrite Ho. run.
    destruct (doc_cases Bookings (field o "bookingId") w)
      as [(s & Hs & Hsne & _)|(e & Hdoc)].
    + destruct Hsne. by apply Hbid.
    + rewrite Hdoc. run. by destruct w.
Qed.

Lemma check_status_without_token_witness :
  let d := with_transaction "ORD-4" [("snap_token", VNull)]
             (sample_db "ORD-4" "B-4" "pending" "unpaid" "unpaid") in
  check_status (reporting "ORD-4" "settlement") "ORD-4" (World d [])
  = (World d [],
     Sent (Response 200
             (status_view "ORD-4"
                (Locals (VStr "pending") (VStr "unpaid") (VStr "unpaid") true)
                d "B-4"))).
Proof.
  cbv zeta.
  eapply (proj1 (proj2 (proj2 (check_status_without_token
                                 (reporting "ORD-4" "settlement")
                                 (World (with_transaction "ORD-4"
                                           [("snap_token", VNull)]
                                           (sample_db "ORD-4" "B-4" "pending"
                                              "unpaid" "unpaid")) [])
                                 "ORD-4" _ eq_refl eq_refl)))).
  - discriminate.
  - reflexivity.
  - reflexivity.
  - reflexivity.
Defined.

(** C9, as stated, fails in its last part: without the order, or with an
    order that names no booking, the answer is not the stored state but 404
    or 500.  Nothing is written and the provider is not called. *)
Lemma stored_state_needs_order :
  let d := with_transaction "ORD-4" [("snap_token", VNull)]
             (sample_db "ORD-4" "B-4" "pending" "unpaid" "unpaid") in
  let no_order := World (without Orders d) [] in
  let no_booking_id :=
    World (set_coll d Orders
             {[ "ORD-4" := fields_of [("orderId", VStr "ORD-4");
                                      ("bookingId", VStr "")] ]}) [] in
  stored_token d "ORD-4" = VNull
  ∧ check_status (reporting "ORD-4" "settlement") "ORD-4" no_order
    = (no_order, Sent (error_response 404 "Order not found"))
  ∧ check_status (reporting "ORD-4" "settlement") "ORD-4" no_booking_id
    = (no_booking_id, Sent (error_response 500 "Failed to check status")).
Proof. cbv zeta. repeat split; vm_compute; reflexivity. Qed.

(** ** The status update of a booking *)

Lemma includes_string l v : includes l v = true → ∃ s, v = VStr s.
Proof.
  unfold includes. intros H. apply existsb_exists in H as (s & _ & Hs).
  destruct v; try discriminate. by eexists.
Qed.

Lemma is_str_refl s : is_str (VStr s) s = true.
Proof. apply String.eqb_refl. Qed.

Ltac run_checks := cbn -[fields_of has_undefined encode includes].

(** C10, as the code has it, for a booking that exists and belongs to the
    caller: a status that is given and invalid is answered 400 Invalid
    status; otherwise a payment status that is given and not one of unpaid,
    Berhasil, refunded (failed among them) is answered 400 Invalid payment
    status; in both cases nothing is written.  When both are absent or
    valid, the booking gets the given fields and updatedAt and keeps every
    other field, and no other record changes. *)
Theorem update_booking_status_checks uid id req_body w b :
  id ≠ "" → bookings (db w) !! id = Some b → field b "pasienId" = VStr uid →
  let st := field req_body "status" in
  let ps := field req_body "paymentStatus" in
  let st_ok :=
    truthy st = false
    ∨ includes ["pending"; "confirmed"; "cancelled"; "completed"] st = true in
  let ps_ok :=
    truthy ps = false
    ∨ includes ["unpaid"; "Berhasil"; "refunded"] ps = true in
  (¬ st_ok →
   update_booking_status uid id req_body w
   = (w, Sent (error_response 400 "Invalid status")))
  ∧ (st_ok → ¬ ps_ok →
     update_booking_status uid id req_body w
     = (w, Sent (error_response 400 "Invalid payment status")))
  ∧ (st_ok → ps_ok →
     ∃ b',
       update_booking_status uid id req_body w
       = (World (set_coll (db w) Bookings (<[id := b']> (bookings (db w))))
            (calls w),
          Sent (Response 200
                  (obj [("success", VBool true);
                        ("data", VObj (b' ∪ fields_of [("id", VStr id)]))])))
       ∧ field b' "updatedAt" = VTime (serverTime (db w))
       ∧ field b' "status" = (if truthy st then st else field b "status")
       ∧ field b' "paymentStatus"
         = (if truthy ps then ps else field b "paymentStatus")
       ∧ ∀ k, k ≠ "updatedAt" → k ≠ "status" → k ≠ "paymentStatus" →
              b' !! k = b !! k).
Proof.
  intros Hne Hb Hown. cbv zeta. unfold update_booking_status. cbv zeta.
  generalize (field req_body "status") (field req_body "paymentStatus").
  intros st ps.
  assert (Hself : is_str (field b "pasienId") uid = true)
    by (rewrite Hown; apply is_str_refl).
  unfold_js. run_checks.
  rewrite (eqb_nonempty _ Hne). run_checks. rewrite Hb. run_checks. rewrite Hself. run_checks.
  split; [|split].
  - intros Hst. destruct (truthy st) eqn:Et; [|exfalso; apply Hst; by left].
    destruct (includes ["pending"; "confirmed"; "cancelled"; "completed"] st)
      eqn:Ei; [exfalso; apply Hst; by right|].
    run_checks. by destruct w.
  - intros Hst Hps.
    destruct (truthy ps) eqn:Ep; [|exfalso; apply Hps; by left].
    destruct (includes ["unpaid"; "Berhasil"; "refunded"] ps) eqn:Ej;
      [exfalso; apply Hps; by right|].
    destruct (truthy st) eqn:Et.
    + destruct Hst as [?|Hi]; [discriminate|]. rewrite Hi. run_checks. by destruct w.
    + run_checks. by destruct w.
  - intros Hst Hps.
    assert (Hst' : truthy st = false
                   ∨ truthy st = true
                     ∧ includes ["pending"; "confirmed"; "cancelled";
                                 "completed"] st = true
                     ∧ ∃ s, st = VStr s).
    { destruct (truthy st) eqn:Et; [right|by left].
      destruct Hst as [?|Hi]; [discriminate|].
      split; [done|]. split; [done|]. by eapply includes_string. }
    assert (Hps' : truthy ps = false
                   ∨ truthy ps = true
                     ∧ includes ["unpaid"; "Berhasil"; "refunded"] ps = true
                     ∧ ∃ s, ps = VStr s).
    { destruct (truthy ps) eqn:Ep; [right|by left].
      destruct Hps as [?|Hi]; [discriminate|].
      split; [done|]. split; [done|]. by eapply includes_string. }
    clear Hst Hps.
    destruct Hst' as [Et|(Et & Ei & s1 & Es)],
             Hps' as [Ep|(Ep & Ej & s2 & Es2)];
      rewrite Et, Ep, ?Ei, ?Ej; run_checks;
      (rewrite encode_defined
         by (try rewrite Es; try rewrite Es2; fields_defined));
      run_checks; rewrite Hb; run_checks; rewrite lookup_insert_eq; run_checks;
      eexists; (split; [reflexivity|]).
    all: try subst st; try subst ps.
    all: split; [by erewrite field_written by reflexivity|].
    all: split; [first [by erewrite field_written by reflexivity
                       |by rewrite field_kept by reflexivity]|].
    all: split; [first [by erewrite field_written by reflexivity
                       |by rewrite field_kept by reflexivity]|].
    all: intros k H1 H2 H3; rewrite lookup_union_r; [reflexivity|];
      rewrite lookup_fmap; unfold fields_of; simpl; by simplify_map_eq.
Qed.

Lemma update_booking_status_checks_witness :
  let w := World (sample_db "ORD-5" "B-5" "cancelled" "failed" "failed") [] in
  update_booking_status "user-1" "B-5"
    (fields_of [("paymentStatus", VStr "failed")]) w
  = (w, Sent (error_response 400 "Invalid payment status")).
Proof.
  cbv zeta.
  destruct (update_booking_status_checks "user-1" "B-5"
              (fields_of [("paymentStatus", VStr "failed")])
              (World (sample_db "ORD-5" "B-5" "cancelled" "failed" "failed") [])
              (fields_of [
                 ("bookingId", VStr "B-5"); ("pasienId", VStr "user-1");
                 ("status", VStr "cancelled"); ("paymentStatus", VStr "failed");
                 ("tagihanStatus", VStr "failed")]))
    as (_ & H & _).
  - discriminate.
  - reflexivity.
  - reflexivity.
  - apply H; [by left | by intros [? | ?]].
Defined.

(** C10, as stated, fails: a request whose payment status is failed and
    whose status is not a booking status is answered Invalid status. *)
Lemma invalid_status_answered_first :
  let w := World (sample_db "ORD-5" "B-5" "cancelled" "failed" "failed") [] in
  ∃ r,
    update_booking_status "user-1" "B-5"
      (fields_of [("status", VStr "paid"); ("paymentStatus", VStr "failed")]) w
    = (w, Sent r)
    ∧ member (body r) "error" = VStr "Invalid status".
Proof. cbv zeta. eexists. split; [vm_compute; reflexivity|reflexivity]. Qed.

(** ** Creation of the transaction *)

Lemma prop_truthy v k : truthy v = true → prop v k = mret (member v k).
Proof. by destruct v. Qed.










(** ** The token of a transaction record *)

Ltac project :=
  cbn [db calls orders tagihan transactions bookings set_coll coll fst snd].









(** ** Failure of the provider at creation *)

(** C6 fails on create-transaction.  On a store without records for the
    order, with a provider whose create call fails, the handler answers 500
    and leaves the order and the billing statement it has just created; so
    it does when the create call succeeds without a token.  On the same
    input create-order deletes both. *)
Theorem create_transaction_leaves_records_on_failure :
  let w := World (fresh_db "B-6") [] in
  let req := sample_request "ORD-6" "B-6" in
  let failed := create_transaction failing "user-1" req w in
  let no_token := create_transaction incomplete "user-1" req w in
  let sibling := create_order failing "user-1" req w in
  (orders (db w) !! "ORD-6" = None ∧ tagihan (db w) !! "ORD-6" = None)
  ∧ (failed.2
     = Sent (error_response 500 "Failed to create payment transaction")
     ∧ is_Some (orders (db failed.1) !! "ORD-6")
     ∧ is_Some (tagihan (db failed.1) !! "ORD-6"))
  ∧ (no_token.2 = Sent (error_response 500 "Failed to process transaction")
     ∧ is_Some (orders (db no_token.1) !! "ORD-6")
     ∧ is_Some (tagihan (db no_token.1) !! "ORD-6"))
  ∧ (sibling.2 = Sent (error_response 500 "Payment error: Internal error")
     ∧ orders (db sibling.1) !! "ORD-6" = None
     ∧ tagihan (db sibling.1) !! "ORD-6" = None).
Proof.
  cbv zeta.
  repeat split; try (vm_compute; reflexivity);
    eexists; vm_compute; reflexivity.
Qed.

(** The sibling path: on create-order the compensating delete is there.  For
    a first-time setup in which the create call fails, or succeeds without
    token or redirect URL, the request is answered 500 and neither the order
    nor the billing statement of the order exists afterwards. *)
Lemma create_order_compensates p uid req_body w id :
  create_order_request req_body id →
  transactions (db w) !! id = None →
  (∀ o, orders (db w) !! id = Some o → field o "userId" = VStr uid) →
  (∀ payload, create_fails (snap_createTransaction p payload)) →
  ∃ w' msg,
    create_order p uid req_body w = (w', Sent (error_response 500 msg))
    ∧ orders (db w') !! id = None ∧ tagihan (db w') !! id = None.
Proof.
  intros (Hid & Hne & Hb & Ha & Hc & Hpt & Hu) Ht Hown Hfail.
  pose proof (has_undefined_field _ _ Hu Hb) as Hub.
  pose proof (has_undefined_field _ _ Hu Ha) as Hua.
  pose proof (has_undefined_field _ _ Hu Hc) as Huc.
  pose proof (has_undefined_field _ _ Hu Hpt) as Hup.
  unfold create_order. cbv zeta. rewrite Hb, Ha, Hc, Hpt, Hid.
  rewrite !(prop_truthy _ _ Hc).
  unfold_js. run. rewrite (eqb_nonempty _ Hne). run.
  destruct (orders (db w) !! id) as [o|] eqn:Ho;
    destruct (tagihan (db w) !! id) as [g|] eqn:Hg;
    try (rewrite (Hown o eq_refl), is_str_refl);
    repeat first
      [ rewrite Hg | rewrite Ht
      | rewrite encode_defined by fields_defined
      | progress run ].
  all: match goal with
       | |- context [snap_createTransaction ?q ?payload] =>
           specialize (Hfail payload);
           destruct (snap_createTransaction q payload) as [v|e]
       end; run.
  all: try (destruct (truthy (ApiResponse e)) eqn:Eapi; run;
            [rewrite (prop_truthy _ _ Eapi); run;
             destruct (truthy (member (ApiResponse e) "status_message")); run
            |]).
  all: try (simpl in Hfail;
            destruct (truthy v) eqn:Ev; run;
            [rewrite (prop_truthy _ _ Ev); run;
             destruct (truthy (member v "token")) eqn:Etok; run;
             [rewrite (prop_truthy _ _ Ev); run;
              destruct (truthy (member v "redirect_url")) eqn:Eurl;
              [discriminate Hfail|]; run
             |]
            |]).
  all: eexists _, _; (split; [reflexivity|]); project;
    rewrite ?lookup_delete_eq; split; first [reflexivity | assumption].
Qed.


(** ** What a reconciliation leaves alone *)

Lemma changes_only_refl fs d : changes_only fs d d.
Proof. intros c k. by destruct (coll d c !! k). Qed.

Lemma changes_only_trans fs d1 d2 d3 :
  changes_only fs d1 d2 → changes_only fs d2 d3 → changes_only fs d1 d3.
Proof.
  intros H12 H23 c k. specialize (H12 c k). specialize (H23 c k).
  destruct (coll d1 c !! k), (coll d2 c !! k), (coll d3 c !! k);
    try done.
  intros f Hf. by rewrite H23, H12.
Qed.

Lemma coll_set_coll d c m c' :
  coll (set_coll d c m) c' = if decide (c = c') then m else coll d c'.
Proof. by destruct c, c'. Qed.

Lemma strip_lookup_none (data : object) f fs :
  strip_undefined (VObj data) = VObj fs → data !! f = None → fs !! f = None.
Proof.
  simpl. intros [= <-] H. by rewrite lookup_omap, H.
Qed.

Lemma encode_lookup_none d (data o : object) f :
  encode d data = Some o → data !! f = None → o !! f = None.
Proof.
  unfold encode. intros H Hf.
  destruct (has_undefined (VObj data)).
  - destruct (ignoreUndefinedProperties d); [|discriminate].
    destruct (strip_undefined (VObj data)) as [| | | | | | | | |fs] eqn:E;
      try discriminate.
    injection H as <-. rewrite lookup_fmap.
    by rewrite (strip_lookup_none _ _ _ E Hf).
  - injection H as <-. by rewrite lookup_fmap, Hf.
Qed.

Lemma apply_update_changes_only (fs : list string) d r (o : object) :
  (∀ f, f ∉ fs → o !! f = None) →
  changes_only fs d (apply_update d (r, o)).
Proof.
  intros Ho c k. unfold apply_update. simpl.
  destruct (coll d r.1 !! r.2) as [cur|] eqn:E.
  - rewrite coll_set_coll. case_decide as Hc.
    + subst c. destruct (decide (r.2 = k)) as [<-|Hk].
      * rewrite E, lookup_insert_eq. intros f Hf.
        by rewrite lookup_union_r by auto.
      * rewrite lookup_insert_ne by done. by destruct (coll d r.1 !! k).
    + by destruct (coll d c !! k).
  - by destruct (coll d c !! k).
Qed.

Lemma batch_update_fields (fs : list string) b r (data : object) w w' out :
  (∀ f, f ∉ fs → data !! f = None) →
  Forall (λ u : ref * object, ∀ f, f ∉ fs → u.2 !! f = None) b →
  batch_update b r data w = (w', out) →
  w' = w
  ∧ match out with
    | Done b' => Forall (λ u : ref * object, ∀ f, f ∉ fs → u.2 !! f = None) b'
    | _ => True
    end.
Proof.
  intros Hd Hb. unfold batch_update, encoded, mbind, js_bind, mret, js_ret.
  destruct (encode (db w) data) as [o|] eqn:E; intros [= <- <-]; [|done].
  split; [done|].
  apply Forall_app. split; [done|]. constructor; [|constructor].
  intros f Hf. simpl. eapply encode_lookup_none; eauto.
Qed.

Lemma batch_commit_changes_only (fs : list string) b w w' out :
  Forall (λ u : ref * object, ∀ f, f ∉ fs → u.2 !! f = None) b →
  batch_commit b w = (w', out) →
  changes_only fs (db w) (db w') ∧ calls w' = calls w.
Proof.
  intros Hb. unfold batch_commit.
  destruct (forallb _ b); intros [= <- <-]; [|split; [apply changes_only_refl|done]].
  split; [|done]. simpl. clear -Hb.
  generalize (db w) as d. induction Hb as [|[r o] b Ho Hb IH]; intros d.
  - apply changes_only_refl.
  - simpl. eapply changes_only_trans; [|apply IH].
    by apply apply_update_changes_only.
Qed.

Lemma fields_of_lookup_none l (f : string) :
  f ∉ l.*1 → fields_of l !! f = None.
Proof.
  intros H. unfold fields_of. apply not_elem_of_list_to_map.
  by rewrite fmap_reverse, elem_of_reverse.
Qed.

Ltac not_written :=
  let f := fresh "f" in
  let Hf := fresh "Hf" in
  let Hin := fresh "Hin" in
  intros f Hf; apply fields_of_lookup_none;
  cbn [fmap list_fmap fst]; intros Hin; apply Hf;
  unfold reconciled_fields; rewrite !elem_of_cons in *; tauto.

(** Whatever its outcome, the batch of the two handlers changes nothing but
    the reconciled fields, and calls no provider. *)
Lemma update_all_changes_only r1 r2 r3 r4 l ms w w' out :
  update_all r1 r2 r3 r4 l ms w = (w', out) →
  changes_only reconciled_fields (db w) (db w') ∧ calls w' = calls w.
Proof.
  assert (Hstop : ∀ o : outcome (),
            (w, o) = (w', out) →
            changes_only reconciled_fields (db w) (db w') ∧ calls w' = calls w)
    by (intros o [= <- <-]; split; [apply changes_only_refl|done]).
  unfold update_all. unfold mbind at 1, js_bind at 1.
  destruct (batch_update [] r1 _ w) as [w1 [b1| |]] eqn:E1;
    (apply (batch_update_fields reconciled_fields) in E1 as [-> H1];
     [|not_written|constructor]).
  2, 3: apply Hstop.
  unfold mbind at 1, js_bind at 1.
  destruct (batch_update b1 r2 _ w) as [w2 [b2| |]] eqn:E2;
    (apply (batch_update_fields reconciled_fields) in E2 as [-> H2];
     [|not_written|exact H1]).
  2, 3: apply Hstop.
  unfold mbind at 1, js_bind at 1.
  destruct (batch_update b2 r3 _ w) as [w3 [b3| |]] eqn:E3;
    (apply (batch_update_fields reconciled_fields) in E3 as [-> H3];
     [|not_written|exact H2]).
  2, 3: apply Hstop.
  unfold mbind at 1, js_bind at 1.
  destruct (batch_update b3 r4 _ w) as [w4 [b4| |]] eqn:E4;
    (apply (batch_update_fields reconciled_fields) in E4 as [-> H4];
     [|not_written|exact H3]).
  2, 3: apply Hstop.
  intros Hc. by apply (batch_commit_changes_only _ _ _ _ _ H4) in Hc.
Qed.

(** ** Relations kept by every run of a computation *)

#[global] Instance reconciles_only_preorder : PreOrder reconciles_only.
Proof.
  split.
  - intros w. apply changes_only_refl.
  - intros w1 w2 w3. apply changes_only_trans.
Qed.

#[global] Instance untouched_preorder : PreOrder untouched.
Proof. split; [by intros w|intros w1 w2 w3; unfold untouched; congruence]. Qed.

#[global] Instance same_store_preorder : PreOrder same_store.
Proof. split; [by intros w|intros w1 w2 w3; unfold same_store; congruence]. Qed.

Section preserves.
Context (R : relation world) `{!PreOrder R}.

Lemma preserves_bind {A B} (m : js A) (f : A → js B) :
  preserves R m → (∀ a, preserves R (f a)) → preserves R (m ≫= f).
Proof.
  intros Hm Hf w w' out. unfold mbind, js_bind.
  destruct (m w) as [w1 [a|e|r]] eqn:E; specialize (Hm _ _ _ E).
  - intros H. apply Hf in H. by etrans.
  - by intros [= <- <-].
  - by intros [= <- <-].
Qed.

Lemma preserves_try_catch {A} (m : js A) (h : exn → js A) :
  preserves R m → (∀ e, preserves R (h e)) → preserves R (try_catch m h).
Proof.
  intros Hm Hh w w' out. unfold try_catch.
  destruct (m w) as [w1 [a|e|r]] eqn:E; specialize (Hm _ _ _ E).
  - by intros [= <- <-].
  - intros H. apply Hh in H. by etrans.
  - by intros [= <- <-].
Qed.

Lemma preserves_still {A} (m : js A) :
  (∀ w, (m w).1 = w) → preserves R m.
Proof. intros Hm w w' out H. specialize (Hm w). rewrite H in Hm. by subst. Qed.

Lemma preserves_mret {A} (a : A) : preserves R (mret a).
Proof. by apply preserves_still. Qed.

Lemma preserves_throw {A} e : preserves R (throw (A:=A) e).
Proof. by apply preserves_still. Qed.

Lemma preserves_send {A} code v : preserves R (send (A:=A) code v).
Proof. by apply preserves_still. Qed.

Lemma preserves_prop v k : preserves R (prop v k).
Proof. apply preserves_still. intros w. by destruct v. Qed.

Lemma preserves_doc c v : preserves R (doc c v).
Proof.
  apply preserves_still. intros w. destruct v; try done.
  unfold doc. by case_match.
Qed.

Lemma preserves_get r : preserves R (get r).
Proof. by apply preserves_still. Qed.

Lemma preserves_await a : preserves R (await a).
Proof. apply preserves_still. intros w. by destruct a. Qed.

Lemma preserves_where_eq_limit_1 c k v :
  preserves R (where_eq_limit_1 c k v).
Proof. by apply preserves_still. Qed.

Lemma preserves_verifyToken verifyIdToken authorization :
  preserves R (verifyToken verifyIdToken authorization).
Proof.
  apply preserves_still. intros w. unfold verifyToken, try_catch.
  destruct (negb _); [done|]. by destruct (verifyIdToken _).
Qed.
End preserves.

(** Breaks a computation into its steps. *)
Ltac preserves_step :=
  lazymatch goal with
  | |- preserves _ (try_catch _ _) =>
      apply preserves_try_catch; [typeclasses eauto| |intros ?]
  | |- preserves _ (mbind _ _) =>
      apply preserves_bind; [typeclasses eauto| |intros ?]
  | |- preserves _ (mret _) => apply preserves_mret; typeclasses eauto
  | |- preserves _ (throw _) => apply preserves_throw; typeclasses eauto
  | |- preserves _ (send _ _) => apply preserves_send; typeclasses eauto
  | |- preserves _ (prop _ _) => apply preserves_prop; typeclasses eauto
  | |- preserves _ (doc _ _) => apply preserves_doc; typeclasses eauto
  | |- preserves _ (get _) => apply preserves_get; typeclasses eauto
  | |- preserves _ (await _) => apply preserves_await; typeclasses eauto
  | |- preserves _ (where_eq_limit_1 _ _ _) =>
      apply preserves_where_eq_limit_1; typeclasses eauto
  | |- preserves _ (let _ := _ in _) => cbv zeta
  | |- preserves _ (match ?x with _ => _ end) => destruct x
  end.

Ltac preserves_steps := repeat preserves_step.

Lemma log_call_same_store c : preserves same_store (log_call c).
Proof. by intros w w' out [= <- <-]. Qed.

Lemma log_call_reconciles_only c : preserves reconciles_only (log_call c).
Proof. intros w w' out [= <- <-]. apply changes_only_refl. Qed.

Lemma update_all_reconciles_only r1 r2 r3 r4 l ms :
  preserves reconciles_only (update_all r1 r2 r3 r4 l ms).
Proof.
  intros w w' out H. by apply update_all_changes_only in H as [H _].
Qed.

(** The webhook and the status check, whatever the provider answers and
    however they end, create no document, delete none, and change no field
    but status, paymentStatus, tagihanStatus, midtrans_status and
    updated_at. *)
Theorem reconciliation_changes_statuses_only e id w :
  changes_only reconciled_fields (db w) (db (deliver e id w).1).
Proof.
  assert (H : preserves reconciles_only (deliver e id)).
  { destruct e as [p req_body|p]; simpl.
    - unfold notification, transaction_notification.
      preserves_steps;
        first [apply log_call_reconciles_only
              |apply update_all_reconciles_only].
    - unfold check_status, transaction_status.
      preserves_steps;
        first [apply log_call_reconciles_only
              |apply update_all_reconciles_only]. }
  destruct (deliver e id w) as [w' out] eqn:E. exact (H _ _ _ E).
Qed.


(** ** The webhook delivered twice, and the status check without provider *)

Lemma insert_as_alter {A} (f : A → A) (m : gmap string A) k x :
  m !! k = Some x → <[k := f x]> m = alter f k m.
Proof.
  intros H. apply map_eq. intros j. destruct (decide (k = j)) as [<-|Hj].
  - by rewrite lookup_insert_eq, lookup_alter_eq, H.
  - by rewrite lookup_insert_ne, lookup_alter_ne.
Qed.

Lemma update_all_reconciled w id bid st ps bs f ms :
  linked (db w) id bid → has_undefined ms = false →
  update_all (Transactions, id) (Orders, id) (Tagihan, id) (Bookings, bid)
    (Locals (VStr st) (VStr ps) (VStr bs) f) ms w
  = (World (reconciled (db w) id bid st ps bs ms) (calls w), Done ()).
Proof.
  intros (Hid & Hbid & t & o & g & b & Ht & Ho & Hg & Hb & Hlink & Htok) Hms.
  unfold update_all, batch_update, encoded, mbind, js_bind, mret, js_ret.
  rewrite !encode_defined by fields_defined.
  run. unfold batch_commit. run.
  rewrite Ht, Ho, Hg, Hb. run. unfold apply_update. run.
  rewrite Ht. run. rewrite Ho. run. rewrite Hg. run. rewrite Hb. run.
  unfold reconciled.
  rewrite <- (insert_as_alter _ _ _ _ Ht), <- (insert_as_alter _ _ _ _ Ho),
    <- (insert_as_alter _ _ _ _ Hg), <- (insert_as_alter _ _ _ _ Hb).
  reflexivity.
Qed.

Lemma reconciled_linked d id bid st ps bs ms :
  linked d id bid → linked (reconciled d id bid st ps bs ms) id bid.
Proof.
  intros (Hid & Hbid & t & o & g & b & Ht & Ho & Hg & Hb & Hlink & Htok).
  split; [done|]. split; [done|]. unfold reconciled. cbn [transactions orders
    tagihan bookings].
  do 4 eexists. rewrite !lookup_alter_eq, Ht, Ho, Hg, Hb. simpl.
  repeat split; try reflexivity.
  - by rewrite field_kept by reflexivity.
  - by rewrite field_kept by reflexivity.
Qed.

Lemma at_time_linked now d id bid : linked d id bid → linked (at_time now d) id bid.
Proof. intros H. exact H. Qed.

Lemma notification_reconciled p req_body w n id bid :
  snap_transaction_notification p req_body = Resolves (VObj n) →
  has_undefined (VObj n) = false →
  field n "order_id" = VStr id →
  recognized (field n "transaction_status") →
  linked (db w) id bid →
  ∃ st ps bs,
    (∀ l, map_notification (field n "transaction_status") l
          = Locals (VStr st) (VStr ps) (VStr bs) (isLocalStatus l))
    ∧ notification p req_body w
      = (World (reconciled (db w) id bid st ps bs (VObj n))
           (calls w ++ [NotificationCall req_body]),
         Sent ok_response).
Proof.
  intros Hp Hn Hid Hts Hl.
  pose proof Hl as (Hne & Hbne & t & o & g & b & Ht & Ho & Hg & Hb & Hlink & _).
  assert (∃ st ps bs, ∀ l,
            map_notification (field n "transaction_status") l
            = Locals (VStr st) (VStr ps) (VStr bs) (isLocalStatus l))
    as (st & ps & bs & Hmap).
  { apply recognized_cases in Hts.
    destruct Hts as [->|[->|[->|[->|[->| ->]]]]]; do 3 eexists; reflexivity. }
  exists st, ps, bs. split; [exact Hmap|].
  pose proof (update_all_reconciled
                (World (db w) (calls w ++ [NotificationCall req_body]))
                id bid st ps bs true (VObj n) Hl Hn) as Hrun.
  unfold notification. unfold_js.
  rewrite Hp. run. rewrite Hid. run. rewrite (eqb_nonempty _ Hne). run.
  rewrite Ht. run. rewrite Ho. run. rewrite Hlink. run.
  rewrite (eqb_nonempty _ Hbne). run.
  rewrite Hmap. cbn [isLocalStatus stored_locals]. rewrite Hrun. reflexivity.
Qed.

Lemma union_again (o o' t : object) (f : string) :
  o' !! f = o !! f → (o' ∪ (o ∪ t)) !! f = (o ∪ t) !! f.
Proof.
  intros H. rewrite !lookup_union, H. by destruct (o !! f), (t !! f).
Qed.

Lemma reconciled_again d id bid st ps bs ms now' :
  linked d id bid →
  (∀ now, stamp now ms = ms) →
  changes_only ["updated_at"]
    (reconciled d id bid st ps bs ms)
    (reconciled (at_time now' (reconciled d id bid st ps bs ms))
       id bid st ps bs ms).
Proof.
  intros (Hid & Hbid & t & o & g & b & Ht & Ho & Hg & Hb & _) Hms c k.
  destruct c; cbn [coll reconciled at_time transactions orders tagihan bookings
                   serverTime];
    rewrite !lookup_alter;
    repeat case_decide; subst;
    try (by destruct (_ !! k)).
  all: rewrite ?Ht, ?Ho, ?Hg, ?Hb; cbn [fmap option_fmap option_map].
  all: intros f Hf; apply not_elem_of_cons in Hf as [Hf _];
    apply union_again.
  all: try (rewrite !lookup_fmap; unfold fields_of;
            cbn [reverse rev_append list_to_map foldr fst snd];
            repeat (rewrite lookup_insert; case_decide;
                    [subst; try done; by (simpl; rewrite !Hms)|]);
            by rewrite lookup_empty).
Qed.

(** A notification delivered a second time, at a later server time, is
    answered 200 again and changes nothing in the store but the field
    updated_at of the four records. *)
Theorem notification_twice p req_body n id bid w now' :
  snap_transaction_notification p req_body = Resolves (VObj n) →
  has_undefined (VObj n) = false →
  field n "order_id" = VStr id →
  recognized (field n "transaction_status") →
  linked (db w) id bid →
  ∃ w1 w2,
    notification p req_body w = (w1, Sent ok_response)
    ∧ notification p req_body (World (at_time now' (db w1)) (calls w1))
      = (w2, Sent ok_response)
    ∧ changes_only ["updated_at"] (db w1) (db w2).
Proof.
  intros Hp Hn Hid Hts Hl.
  destruct (notification_reconciled p req_body w n id bid Hp Hn Hid Hts Hl)
    as (st & ps & bs & Hmap & Hrun1).
  assert (Hl1 : linked
                  (db (World (at_time now'
                                (reconciled (db w) id bid st ps bs (VObj n)))
                         (calls w ++ [NotificationCall req_body])))
                  id bid)
    by (apply at_time_linked, reconciled_linked, Hl).
  destruct (notification_reconciled p req_body _ n id bid Hp Hn Hid Hts Hl1)
    as (st' & ps' & bs' & Hmap' & Hrun2).
  assert (Heq : Locals (VStr st') (VStr ps') (VStr bs') true
                = Locals (VStr st) (VStr ps) (VStr bs) true).
  { pose proof (Hmap' (Locals VUndef VUndef VUndef true)) as H'.
    pose proof (Hmap (Locals VUndef VUndef VUndef true)) as H.
    simpl in H, H'. congruence. }
  injection Heq as -> -> ->.
  eexists _, _. split; [exact Hrun1|]. split; [exact Hrun2|].
  cbn [db]. by apply reconciled_again.
Qed.

Lemma notification_twice_witness :
  ∃ w1 w2,
    notification (reporting "ORD-1" "settlement") VNull
      (World (sample_db "ORD-1" "B-1" "pending" "unpaid" "unpaid") [])
    = (w1, Sent ok_response)
    ∧ notification (reporting "ORD-1" "settlement") VNull
        (World (at_time 200 (db w1)) (calls w1))
      = (w2, Sent ok_response)
    ∧ changes_only ["updated_at"] (db w1) (db w2).
Proof.
  apply (notification_twice (reporting "ORD-1" "settlement") VNull
           (fields_of [("order_id", VStr "ORD-1");
                       ("transaction_status", VStr "settlement")])
           "ORD-1" "B-1").
  - reflexivity.
  - reflexivity.
  - reflexivity.
  - reflexivity.
  - apply sample_linked; discriminate.
Defined.

(** When the status query of the provider fails, the status check answers
    200 with the statuses stored on the transaction record, marked
    isLocalStatus, and with the stored order, billing statement and booking;
    it writes nothing. *)
Theorem check_status_falls_back p w id bid e :
  linked (db w) id bid →
  core_transaction_status p (VStr id) = Rejects e →
  ∃ t,
    transactions (db w) !! id = Some t
    ∧ check_status p id w
      = (World (db w) (calls w ++ [StatusCall (VStr id)]),
         Sent (Response 200
                 (status_view id
                    (Locals (field t "status") (field t "paymentStatus")
                       (field t "tagihanStatus") true)
                    (db w) bid))).
Proof.
  intros (Hne & Hbne & t & o & g & b & Ht & Ho & Hg & Hb & Hlink & Htok) Hp.
  exists t. split; [exact Ht|].
  unfold check_status. unfold_js. run.
  rewrite (eqb_nonempty _ Hne). run. rewrite Ht. run. rewrite Ho. run.
  rewrite Hlink. run. rewrite (eqb_nonempty _ Hbne). run. rewrite Htok. run.
  rewrite Hp. run. rewrite Ho. unfold status_view. rewrite Ho. reflexivity.
Qed.

Lemma check_status_falls_back_witness :
  let d := sample_db "ORD-1" "B-1" "pending" "unpaid" "unpaid" in
  ∃ t,
    transactions d !! "ORD-1" = Some t
    ∧ check_status failing "ORD-1" (World d [])
      = (World d [StatusCall (VStr "ORD-1")],
         Sent (Response 200
                 (status_view "ORD-1"
                    (Locals (field t "status") (field t "paymentStatus")
                       (field t "tagihanStatus") true)
                    d "B-1"))).
Proof.
  cbv zeta.
  apply (check_status_falls_back failing
           (World (sample_db "ORD-1" "B-1" "pending" "unpaid" "unpaid") [])
           "ORD-1" "B-1"
           (Exn "Transaction doesn't exist." (VStr "404") VUndef)).
  - apply sample_linked; discriminate.
  - reflexivity.
Defined.


(** ** The guards of the creation routes *)

(** A create-transaction or create-order request in which a required field
    is absent or falsy (an amount of 0, an empty string) is answered 400
    before anything is read, written or asked of the provider. *)
Theorem missing_fields_rejected p uid req_body w :
  (truthy (field req_body "bookingId") = false
   ∨ truthy (field req_body "orderId") = false
   ∨ truthy (field req_body "amount") = false
   ∨ truthy (field req_body "customer_details") = false →
   create_transaction p uid req_body w
   = (w, Sent (error_response 400 "Missing required fields")))
  ∧ (truthy (field req_body "bookingId") = false
     ∨ truthy (field req_body "orderId") = false
     ∨ truthy (field req_body "amount") = false
     ∨ truthy (field req_body "customerDetails") = false
     ∨ truthy (field req_body "paymentType") = false →
     create_order p uid req_body w
     = (w, Sent (error_response 400 "Missing required fields"))).
Proof.
  split.
  - intros H. unfold create_transaction. cbv zeta.
    assert (negb (truthy (field req_body "bookingId"))
            || negb (truthy (field req_body "orderId"))
            || negb (truthy (field req_body "amount"))
            || negb (truthy (field req_body "customer_details")) = true)
      as ->.
    { destruct H as [->|[->|[->| ->]]]; simpl;
        rewrite ?orb_true_r; reflexivity. }
    by destruct w.
  - intros H. unfold create_order. cbv zeta.
    assert (negb (truthy (field req_body "bookingId"))
            || negb (truthy (field req_body "orderId"))
            || negb (truthy (field req_body "amount"))
            || negb (truthy (field req_body "customerDetails"))
            || negb (truthy (field req_body "paymentType")) = true)
      as ->.
    { destruct H as [->|[->|[->|[->| ->]]]]; simpl;
        rewrite ?orb_true_r; reflexivity. }
    by destruct w.
Qed.

Lemma missing_fields_rejected_witness :
  let req_body := fields_of [("bookingId", VStr "B-1");
                             ("orderId", VStr "ORD-1"); ("amount", VNum 0)] in
  let w := World (fresh_db "B-1") [] in
  create_transaction (creating "token-1" "https://pay.example/1") "user-1"
    req_body w
  = (w, Sent (error_response 400 "Missing required fields"))
  ∧ create_order (creating "token-1" "https://pay.example/1") "user-1"
      req_body w
    = (w, Sent (error_response 400 "Missing required fields")).
Proof.
  cbv zeta.
  destruct (missing_fields_rejected
              (creating "token-1" "https://pay.example/1") "user-1"
              (fields_of [("bookingId", VStr "B-1");
                          ("orderId", VStr "ORD-1"); ("amount", VNum 0)])
              (World (fresh_db "B-1") [])) as [Ht Ho].
  split; [apply Ht|apply Ho]; right; right; left; reflexivity.
Defined.

(** A create-transaction or create-order request for an order that belongs
    to another user is answered 403; nothing is written and the provider is
    not called. *)
Theorem foreign_order_refused p uid req_body w id o :
  field req_body "orderId" = VStr id → id ≠ "" →
  orders (db w) !! id = Some o →
  is_str (field o "userId") uid = false →
  (truthy (field req_body "bookingId") = true →
   truthy (field req_body "amount") = true →
   truthy (field req_body "customer_details") = true →
   create_transaction p uid req_body w
   = (w, Sent (error_response 403 "Access denied")))
  ∧ (truthy (field req_body "bookingId") = true →
     truthy (field req_body "amount") = true →
     truthy (field req_body "customerDetails") = true →
     truthy (field req_body "paymentType") = true →
     create_order p uid req_body w
     = (w, Sent (error_response 403 "Access denied"))).
Proof.
  intros Hid Hne Ho Hown. split.
  - intros Hb Ha Hc. unfold create_transaction. cbv zeta.
    rewrite Hb, Ha, Hc, Hid. unfold_js. run.
    rewrite (eqb_nonempty _ Hne). run. rewrite Ho. run. rewrite Hown.
    by destruct w.
  - intros Hb Ha Hc Hp. unfold create_order. cbv zeta.
    rewrite Hb, Ha, Hc, Hp, Hid. unfold_js. run.
    rewrite (eqb_nonempty _ Hne). run. rewrite Ho. run. rewrite Hown.
    by destruct w.
Qed.

Lemma foreign_order_refused_witness :
  let w := World (sample_db "ORD-1" "B-1" "pending" "unpaid" "unpaid") [] in
  create_transaction (creating "token-2" "https://pay.example/2") "user-2"
    (sample_request "ORD-1" "B-1") w
  = (w, Sent (error_response 403 "Access denied"))
  ∧ create_order (creating "token-2" "https://pay.example/2") "user-2"
      (sample_request "ORD-1" "B-1") w
    = (w, Sent (error_response 403 "Access denied")).
Proof.
  cbv zeta.
  destruct (foreign_order_refused
              (creating "token-2" "https://pay.example/2") "user-2"
              (sample_request "ORD-1" "B-1")
              (World (sample_db "ORD-1" "B-1" "pending" "unpaid" "unpaid") [])
              "ORD-1"
              (fields_of [
                 ("orderId", VStr "ORD-1"); ("bookingId", VStr "B-1");
                 ("amount", VNum 50000); ("userId", VStr "user-1");
                 ("status", VStr "pending"); ("paymentStatus", VStr "unpaid")]))
    as [H1 H2]; try reflexivity; [discriminate|].
  split; [apply H1 | apply H2]; reflexivity.
Defined.

(** ** create-order, twice *)

Lemma create_order_again p uid req_body w id o g t :
  create_order_request req_body id →
  orders (db w) !! id = Some o → field o "userId" = VStr uid →
  tagihan (db w) !! id = Some g →
  transactions (db w) !! id = Some t → field t "userId" = VStr uid →
  create_order p uid req_body w
  = (w, Sent (Response 200 (obj [
       ("success", VBool true);
       ("data", obj [("order", VObj o); ("tagihan", VObj g);
                     ("transaction", VObj t)])]))).
Proof.
  intros (Hid & Hne & Hb & Ha & Hc & Hpt & Hu) Ho Hown Hg Ht Htown.
  unfold create_order. cbv zeta. rewrite Hb, Ha, Hc, Hpt, Hid.
  unfold_js. run. rewrite (eqb_nonempty _ Hne). run.
  rewrite Ho. run. rewrite Hown, is_str_refl. run.
  rewrite Hg. run. rewrite Ht. run. rewrite Htown, is_str_refl.
  by destruct w.
Qed.

Lemma create_order_first p uid req_body w id resp tk url :
  create_order_request req_body id →
  (∀ o, orders (db w) !! id = Some o → field o "userId" = VStr uid) →
  transactions (db w) !! id = None →
  (∀ payload, snap_createTransaction p payload = Resolves (VObj resp)) →
  field resp "token" = VStr tk → tk ≠ "" →
  field resp "redirect_url" = VStr url → url ≠ "" →
  ∃ w1 r1 payload o g t,
    create_order p uid req_body w = (w1, Sent r1)
    ∧ status_code r1 = 200%nat
    ∧ returned_token r1 = VStr tk ∧ returned_redirect_url r1 = VStr url
    ∧ calls w1 = (calls w ++ [CreateCall (VObj payload)])%list
    ∧ field payload "enabled_payments"
      = (if includes validPaymentTypes (field req_body "paymentType")
         then VArr [field req_body "paymentType"] else VUndef)
    ∧ orders (db w1) !! id = Some o ∧ field o "userId" = VStr uid
    ∧ tagihan (db w1) !! id = Some g
    ∧ transactions (db w1) !! id = Some t
    ∧ field t "userId" = VStr uid ∧ field t "status" = VStr "pending"
    ∧ field t "snap_token" = VStr tk ∧ field t "redirect_url" = VStr url.
Proof.
  intros (Hid & Hne & Hb & Ha & Hc & Hpt & Hu) Hown Ht Hcreate
    Htk Htkne Hurl Hurlne.
  pose proof (has_undefined_field _ _ Hu Hb) as Hub.
  pose proof (has_undefined_field _ _ Hu Ha) as Hua.
  pose proof (has_undefined_field _ _ Hu Hc) as Huc.
  pose proof (has_undefined_field _ _ Hu Hpt) as Hup.
  pose proof (parseInt_defined (field req_body "amount")) as Hparse.
  unfold create_order. cbv zeta. rewrite Hb, Ha, Hc, Hpt, Hid.
  rewrite !(prop_truthy _ _ Hc).
  unfold_js. run_checks.
  match goal with
  | |- context [VObj (if ?c then ?a else ?b)] =>
      remember (if c then a else b) as payload eqn:Hpay
  end.
  assert (Hpayments :
    field payload "enabled_payments"
    = if includes validPaymentTypes (field req_body "paymentType")
      then VArr [field req_body "paymentType"] else VUndef).
  { subst payload.
    destruct (is_str (field req_body "paymentType") "all") eqn:Eall.
    - apply is_str_true in Eall. rewrite Eall. reflexivity.
    - cbn [andb negb].
      destruct (includes validPaymentTypes (field req_body "paymentType"));
        [|reflexivity].
      unfold field. by rewrite lookup_insert_eq. }
  clear Hpay.
  rewrite (eqb_nonempty _ Hne). run.
  destruct (orders (db w) !! id) as [o|] eqn:Ho;
    destruct (tagihan (db w) !! id) as [g|] eqn:Hg;
    try (rewrite (Hown o eq_refl), is_str_refl);
    repeat first
      [ rewrite Hcreate | rewrite Htk | rewrite Hurl
      | rewrite (eqb_nonempty _ Htkne) | rewrite (eqb_nonempty _ Hurlne)
      | rewrite Hg | rewrite Ht
      | rewrite encode_defined by fields_defined
      | progress run ];
    eexists _, _, _, _, _, _; (split; [reflexivity|]);
    (split; [reflexivity|]);
    (split; [reflexivity|]);
    (split; [reflexivity|]);
    (split; [reflexivity|]);
    (split; [exact Hpayments|]);
    project; rewrite ?lookup_insert_eq;
    (split; [first [reflexivity | eassumption]|]);
    (split; [first [by apply Hown | reflexivity]|]);
    (split; [first [reflexivity | eassumption]|]);
    (split; [reflexivity|]);
    repeat split; reflexivity.
Qed.

(** create-order is idempotent per order and caller, for an order id that
    is a document id.  The first request of a first-time setup asks the provider for one transaction, restricted to
    the payment method of the request when that is a known one, and stores
    the token; a second request, whatever the provider would answer, is
    answered 200 with the stored records and the same token, writes nothing
    and does not call the provider. *)
Theorem create_order_idempotent p1 p2 uid req_body w id resp tk url :
  document_id id →
  create_order_request req_body id →
  (∀ o, orders (db w) !! id = Some o → field o "userId" = VStr uid) →
  transactions (db w) !! id = None →
  (∀ payload, snap_createTransaction p1 payload = Resolves (VObj resp)) →
  field resp "token" = VStr tk → tk ≠ "" →
  field resp "redirect_url" = VStr url → url ≠ "" →
  ∃ w1 r1 r2 payload,
    create_order p1 uid req_body w = (w1, Sent r1)
    ∧ create_order p2 uid req_body w1 = (w1, Sent r2)
    ∧ status_code r1 = 200%nat ∧ status_code r2 = 200%nat
    ∧ calls w1 = (calls w ++ [CreateCall (VObj payload)])%list
    ∧ field payload "enabled_payments"
      = (if includes validPaymentTypes (field req_body "paymentType")
         then VArr [field req_body "paymentType"] else VUndef)
    ∧ returned_token r1 = VStr tk ∧ returned_token r2 = VStr tk
    ∧ returned_redirect_url r1 = VStr url
    ∧ returned_redirect_url r2 = VStr url.
Proof.
  intros _ Hreq Hown Ht Hcreate Htk Htkne Hurl Hurlne.
  destruct (create_order_first p1 uid req_body w id resp tk url
              Hreq Hown Ht Hcreate Htk Htkne Hurl Hurlne)
    as (w1 & r1 & payload & o & g & t & Hrun1 & Hcode1 & Htok1 & Hurl1
        & Hcalls & Hpay & Ho & Howner & Hg & Ht1 & Htowner & _ & Htt & Htu).
  pose proof (create_order_again p2 uid req_body w1 id o g t
                Hreq Ho Howner Hg Ht1 Htowner) as Hrun2.
  eexists w1, r1, _, payload.
  split; [exact Hrun1|]. split; [exact Hrun2|].
  split; [exact Hcode1|]. split; [reflexivity|].
  split; [exact Hcalls|]. split; [exact Hpay|].
  split; [exact Htok1|]. split; [exact Htt|].
  split; [exact Hurl1|exact Htu].
Qed.

Lemma sample_order_request_ok id bid :
  id ≠ "" → bid ≠ "" → create_order_request (sample_request id bid) id.
Proof.
  intros Hid Hbid. unfold create_order_request.
  split; [reflexivity|]. split; [exact Hid|].
  split; [by apply negb_true_iff, eqb_nonempty|].
  split; [reflexivity|]. split; [reflexivity|]. split; [reflexivity|].
  fields_defined.
Qed.

Lemma create_order_idempotent_witness :
  ∃ w1 r1 r2 payload,
    create_order (creating "token-7" "https://pay.example/7") "user-1"
      (sample_request "ORD-7" "B-7") (World (fresh_db "B-7") [])
    = (w1, Sent r1)
    ∧ create_order failing "user-1" (sample_request "ORD-7" "B-7") w1
      = (w1, Sent r2)
    ∧ status_code r1 = 200%nat ∧ status_code r2 = 200%nat
    ∧ calls w1 = [CreateCall (VObj payload)]
    ∧ field payload "enabled_payments"
      = (if includes validPaymentTypes
              (field (sample_request "ORD-7" "B-7") "paymentType")
         then VArr [field (sample_request "ORD-7" "B-7") "paymentType"]
         else VUndef)
    ∧ returned_token r1 = VStr "token-7"
    ∧ returned_token r2 = VStr "token-7"
    ∧ returned_redirect_url r1 = VStr "https://pay.example/7"
    ∧ returned_redirect_url r2 = VStr "https://pay.example/7".
Proof.
  eapply (create_order_idempotent
            (creating "token-7" "https://pay.example/7") failing
            "user-1" (sample_request "ORD-7" "B-7")
            (World (fresh_db "B-7") []) "ORD-7").
  - reflexivity.
  - apply sample_order_request_ok; discriminate.
  - intros o Ho. discriminate Ho.
  - reflexivity.
  - intros payload. reflexivity.
  - reflexivity.
  - discriminate.
  - reflexivity.
  - discriminate.
Defined.


(** ** The route /create *)

Lemma create_runs p req_body w id o resp tk url :
  field req_body "orderId" = VStr id → id ≠ "" →
  orders (db w) !! id = Some o →
  has_undefined (field o "amount") = false →
  (∀ payload, snap_createTransaction p payload = Resolves (VObj resp)) →
  field resp "token" = VStr tk → field resp "redirect_url" = VStr url →
  ∃ payload,
    create p req_body w
    = (World
         (set_coll (db w) Transactions
            (<[id := stamp (serverTime (db w)) <$> fields_of [
                 ("orderId", VStr id);
                 ("amount", field o "amount");
                 ("status", VStr "pending");
                 ("paymentStatus", VStr "unpaid");
                 ("tagihanStatus", VStr "unpaid");
                 ("snap_token", VStr tk);
                 ("payment_url", VStr url);
                 ("created_at", VServerTimestamp);
                 ("updated_at", VServerTimestamp)]]> (transactions (db w))))
         (calls w ++ [CreateCall payload]),
       Sent (Response 200 (obj [
         ("success", VBool true);
         ("data", obj [
            ("transaction", obj [
               ("orderId", VStr id);
               ("token", VStr tk);
               ("payment_url", VStr url)])])]))).
Proof.
  intros Hid Hne Ho Ha Hcreate Htk Hurl.
  unfold create. cbv zeta. rewrite Hid. unfold_js. run.
  rewrite (eqb_nonempty _ Hne). run. rewrite Ho. run.
  rewrite Hcreate. run. rewrite Htk, Hurl. run.
  rewrite encode_defined by fields_defined. run.
  eexists. reflexivity.
Qed.

(** The route /create, for an order that exists, asks the provider for a
    new transaction and puts a new record in the place of the transaction
    record of the order: the statuses are back at pending / unpaid / unpaid
    whatever they were, and the owner of the old record is gone, so that
    afterwards GET /order/:orderId answers 403 to every user. *)
Theorem create_replaces_transaction p req_body w id o resp tk url :
  field req_body "orderId" = VStr id → id ≠ "" →
  orders (db w) !! id = Some o →
  has_undefined (field o "amount") = false →
  (∀ payload, snap_createTransaction p payload = Resolves (VObj resp)) →
  field resp "token" = VStr tk → field resp "redirect_url" = VStr url →
  ∃ w' r t',
    create p req_body w = (w', Sent r) ∧ status_code r = 200%nat
    ∧ transactions (db w') !! id = Some t'
    ∧ dom t' = list_to_set ["orderId"; "amount"; "status"; "paymentStatus";
                            "tagihanStatus"; "snap_token"; "payment_url";
                            "created_at"; "updated_at"]
    ∧ (field t' "status", field t' "paymentStatus", field t' "tagihanStatus")
      = (VStr "pending", VStr "unpaid", VStr "unpaid")
    ∧ field t' "snap_token" = VStr tk
    ∧ ∀ uid,
        get_order uid id w' = (w', Sent (error_response 403 "Access denied")).
Proof.
  intros Hid Hne Ho Ha Hcreate Htk Hurl.
  destruct (create_runs p req_body w id o resp tk url
              Hid Hne Ho Ha Hcreate Htk Hurl) as (payload & Hrun).
  eexists _, _, _. split; [exact Hrun|]. split; [reflexivity|].
  project. rewrite lookup_insert_eq. split; [reflexivity|].
  split.
  { rewrite dom_fmap_L. unfold fields_of.
    cbn [reverse rev_append list_to_map foldr fst snd].
    rewrite !dom_insert_L, dom_empty_L. set_solver. }
  split; [reflexivity|]. split; [reflexivity|].
  intros uid. unfold get_order. unfold_js. run.
  rewrite (eqb_nonempty _ Hne). run. rewrite lookup_insert_eq. reflexivity.
Qed.

Lemma create_replaces_transaction_witness :
  ∃ w' r t',
    create (creating "token-2" "https://pay.example/2")
      (fields_of [("orderId", VStr "ORD-1")])
      (World (sample_db "ORD-1" "B-1" "confirmed" "Berhasil" "Berhasil") [])
    = (w', Sent r)
    ∧ status_code r = 200%nat
    ∧ transactions (db w') !! "ORD-1" = Some t'
    ∧ dom t' = list_to_set ["orderId"; "amount"; "status"; "paymentStatus";
                            "tagihanStatus"; "snap_token"; "payment_url";
                            "created_at"; "updated_at"]
    ∧ (field t' "status", field t' "paymentStatus", field t' "tagihanStatus")
      = (VStr "pending", VStr "unpaid", VStr "unpaid")
    ∧ field t' "snap_token" = VStr "token-2"
    ∧ ∀ uid,
        get_order uid "ORD-1" w'
        = (w', Sent (error_response 403 "Access denied")).
Proof.
  eapply (create_replaces_transaction
            (creating "token-2" "https://pay.example/2")
            (fields_of [("orderId", VStr "ORD-1")])
            (World (sample_db "ORD-1" "B-1" "confirmed" "Berhasil" "Berhasil")
               [])
            "ORD-1").
  - reflexivity.
  - discriminate.
  - reflexivity.
  - reflexivity.
  - intros payload. reflexivity.
  - reflexivity.
  - reflexivity.
Defined.

(** The route /create for an order id that is a document id without a
    record is answered 404; the provider is not called and nothing is
    written. *)
Theorem create_without_order p req_body w id :
  field req_body "orderId" = VStr id → document_id id →
  orders (db w) !! id = None →
  create p req_body w = (w, Sent (error_response 404 "Order not found")).
Proof.
  intros Hid Hne%document_id_nonempty Ho.
  unfold create. cbv zeta. rewrite Hid. unfold_js. run.
  rewrite (eqb_nonempty _ Hne). run. rewrite Ho. by destruct w.
Qed.

Lemma create_without_order_witness :
  create (creating "token-2" "https://pay.example/2")
    (fields_of [("orderId", VStr "ORD-9")]) (World (fresh_db "B-9") [])
  = (World (fresh_db "B-9") [],
     Sent (error_response 404 "Order not found")).
Proof.
  apply (create_without_order _ _ (World (fresh_db "B-9") []) "ORD-9").
  - reflexivity.
  - reflexivity.
  - reflexivity.
Defined.

(** ** The payment-url lookup *)

(** The lookup of a record without payment URL asks the provider for a new
    transaction and stores its token and, as payment_url, its redirect URL;
    the field redirect_url of the record stays as it was.  A second lookup,
    whatever the provider would answer, gives the same answer as the first,
    writes nothing and does not call the provider. *)
Theorem payment_url_twice p1 p2 w id t o resp tk url :
  id ≠ "" →
  transactions (db w) !! id = Some t →
  truthy (field t "payment_url") = false →
  orders (db w) !! id = Some o →
  (∀ payload, snap_createTransaction p1 payload = Resolves (VObj resp)) →
  field resp "token" = VStr tk →
  field resp "redirect_url" = VStr url → url ≠ "" →
  ∃ w1 r payload t1,
    payment_url p1 id w = (w1, Sent r)
    ∧ payment_url p2 id w1 = (w1, Sent r)
    ∧ calls w1 = (calls w ++ [CreateCall payload])%list
    ∧ member (member (member (body r) "data") "transaction") "token" = VStr tk
    ∧ member (member (member (body r) "data") "transaction") "payment_url"
      = VStr url
    ∧ transactions (db w1) !! id = Some t1
    ∧ field t1 "snap_token" = VStr tk ∧ field t1 "payment_url" = VStr url
    ∧ t1 !! "redirect_url" = t !! "redirect_url".
Proof.
  intros Hne Ht Hnourl Ho Hcreate Htk Hurl Hurlne.
  eexists _, _, _, _.
  split.
  { unfold payment_url. unfold_js. run.
    rewrite (eqb_nonempty _ Hne). run. rewrite Ht. run. rewrite Hnourl. run.
    rewrite Ho. run. rewrite Hcreate. run. rewrite Htk, Hurl. run.
    rewrite encode_defined by fields_defined. run. rewrite Ht. run.
    reflexivity. }
  split.
  { unfold payment_url. unfold_js. run.
    rewrite (eqb_nonempty _ Hne). run. rewrite lookup_insert_eq. run.
    erewrite !field_written by reflexivity. run.
    rewrite (eqb_nonempty _ Hurlne). reflexivity. }
  split; [reflexivity|]. split; [reflexivity|]. split; [reflexivity|].
  project. rewrite lookup_insert_eq. split; [reflexivity|].
  split; [by erewrite field_written by reflexivity|].
  split; [by erewrite field_written by reflexivity|].
  rewrite lookup_union_r; reflexivity.
Qed.

Lemma payment_url_twice_witness :
  ∃ w1 r payload t1,
    payment_url (creating "token-2" "https://pay.example/2") "ORD-1"
      (World (sample_db "ORD-1" "B-1" "pending" "unpaid" "unpaid") [])
    = (w1, Sent r)
    ∧ payment_url failing "ORD-1" w1 = (w1, Sent r)
    ∧ calls w1 = [CreateCall payload]
    ∧ member (member (member (body r) "data") "transaction") "token"
      = VStr "token-2"
    ∧ member (member (member (body r) "data") "transaction") "payment_url"
      = VStr "https://pay.example/2"
    ∧ transactions (db w1) !! "ORD-1" = Some t1
    ∧ field t1 "snap_token" = VStr "token-2"
    ∧ field t1 "payment_url" = VStr "https://pay.example/2"
    ∧ t1 !! "redirect_url" = Some (VStr "https://pay.example/1").
Proof.
  edestruct (payment_url_twice
               (creating "token-2" "https://pay.example/2") failing
               (World (sample_db "ORD-1" "B-1" "pending" "unpaid" "unpaid") [])
               "ORD-1")
    as (w1 & r & payload & t1 & H1 & H2 & H3 & H4 & H5 & H6 & H7 & H8 & H9);
    [discriminate | reflexivity | reflexivity | reflexivity
    | intros payload; reflexivity | reflexivity | reflexivity | discriminate |].
  exists w1, r, payload, t1.
  split; [exact H1|]. split; [exact H2|]. split; [exact H3|].
  split; [exact H4|]. split; [exact H5|]. split; [exact H6|].
  split; [exact H7|]. split; [exact H8|]. rewrite H9. reflexivity.
Defined.

(** For an order id that is a document id, the lookup is answered 404
    Transaction not found when the order has no transaction record, and 404 Order not found when the record has no
    payment URL and the order does not exist; in both cases the provider is
    not called and nothing is written. *)
Theorem payment_url_not_found p w id :
  document_id id →
  (transactions (db w) !! id = None →
   payment_url p id w
   = (w, Sent (error_response 404 "Transaction not found")))
  ∧ (∀ t, transactions (db w) !! id = Some t →
          truthy (field t "payment_url") = false →
          orders (db w) !! id = None →
          payment_url p id w
          = (w, Sent (error_response 404 "Order not found"))).
Proof.
  intros Hne%document_id_nonempty. split.
  - intros Ht. unfold payment_url. unfold_js. run.
    rewrite (eqb_nonempty _ Hne). run. rewrite Ht. by destruct w.
  - intros t Ht Hnourl Ho. unfold payment_url. unfold_js. run.
    rewrite (eqb_nonempty _ Hne). run. rewrite Ht. run. rewrite Hnourl. run.
    rewrite Ho. by destruct w.
Qed.

Lemma payment_url_not_found_witness :
  payment_url (creating "token-2" "https://pay.example/2") "ORD-9"
    (World (fresh_db "B-9") [])
  = (World (fresh_db "B-9") [],
     Sent (error_response 404 "Transaction not found")).
Proof.
  apply (payment_url_not_found (creating "token-2" "https://pay.example/2")
           (World (fresh_db "B-9") []) "ORD-9").
  - reflexivity.
  - reflexivity.
Defined.


(** ** The route /order/:orderId *)

Lemma first_by_id_elem l kv : first_by_id l = Some kv → kv ∈ l.
Proof.
  revert kv. induction l as [|x l IH]; intros kv; simpl; [discriminate|].
  destruct (first_by_id l) as [kv'|] eqn:E.
  - destruct (String.ltb x.1 kv'.1); intros [= <-].
    + left.
    + right. by apply IH.
  - intros [= <-]. left.
Qed.

Lemma first_by_id_none l : first_by_id l = None → l = [].
Proof.
  destruct l as [|x l]; [done|]. simpl.
  destruct (first_by_id l) as [kv'|]; [|discriminate].
  by destruct (String.ltb x.1 kv'.1).
Qed.

(** GET /order/:orderId, for an order id that is a document id, writes
    nothing and calls no provider, whatever it answers, and answers 200
    only when the transaction record of the order belongs to the caller. *)
Theorem get_order_owner_only uid id w :
  document_id id →
  ∃ r, get_order uid id w = (w, Sent r)
       ∧ (status_code r = 200%nat →
          ∃ t, transactions (db w) !! id = Some t
               ∧ field t "userId" = VStr uid).
Proof.
  intros Hne%document_id_nonempty.
  unfold get_order, where_eq_limit_1. unfold_js. run.
  rewrite (eqb_nonempty _ Hne). run.
  destruct (transactions (db w) !! id) as [t|] eqn:Ht; run;
    [|destruct w; eexists; split; [reflexivity|discriminate]].
  destruct (is_str (field t "userId") uid) eqn:Hown; run;
    [|destruct w; eexists; split; [reflexivity|discriminate]].
  destruct w. eexists. split; [reflexivity|]. intros _.
  exists t. split; [reflexivity|]. by apply is_str_true.
Qed.

Lemma get_order_owner_only_witness :
  let w := World (sample_db "ORD-1" "B-1" "pending" "unpaid" "unpaid") [] in
  ∃ r, get_order "user-2" "ORD-1" w = (w, Sent r)
       ∧ (status_code r = 200%nat →
          ∃ t, transactions (db w) !! "ORD-1" = Some t
               ∧ field t "userId" = VStr "user-2").
Proof.
  cbv zeta.
  apply (get_order_owner_only "user-2" "ORD-1"
           (World (sample_db "ORD-1" "B-1" "pending" "unpaid" "unpaid") [])).
  reflexivity.
Defined.

(** To the owner of the transaction record, GET /order/:orderId gives the
    record together with a billing statement of the order, namely a document
    of the collection tagihan whose field orderId is the id of the order, or
    with null when there is no such document. *)
Theorem get_order_answer uid id w t :
  id ≠ "" →
  transactions (db w) !! id = Some t → field t "userId" = VStr uid →
  ∃ tg,
    get_order uid id w
    = (w, Sent (Response 200 (obj [
         ("success", VBool true);
         ("data", VObj (<["tagihan" := tg]> t))])))
    ∧ ((tg = VNull
        ∧ ∀ k g, tagihan (db w) !! k = Some g → field g "orderId" ≠ VStr id)
       ∨ ∃ k g, tg = VObj g ∧ tagihan (db w) !! k = Some g
                ∧ field g "orderId" = VStr id).
Proof.
  intros Hne Ht Hown.
  unfold get_order, where_eq_limit_1. unfold_js. run.
  rewrite (eqb_nonempty _ Hne). run. rewrite Ht. run.
  rewrite Hown, is_str_refl. run.
  destruct (first_by_id _) as [[k g]|] eqn:E; run.
  - exists (VObj g). split; [by destruct w|]. right. exists k, g.
    apply first_by_id_elem, list_elem_of_In, filter_In in E as [Hin Hf].
    apply list_elem_of_In, elem_of_map_to_list in Hin.
    split; [reflexivity|]. split; [exact Hin|]. by apply is_str_true.
  - exists VNull. split; [by destruct w|]. left. split; [reflexivity|].
    intros k g Hg Hfield. apply first_by_id_none in E.
    assert (In (k, g)
              (List.filter (λ kv : string * object,
                              is_str (field kv.2 "orderId") id)
                 (map_to_list (tagihan (db w))))) as Hin.
    { apply filter_In. split.
      - by apply list_elem_of_In, elem_of_map_to_list.
      - simpl. rewrite Hfield. apply is_str_refl. }
    rewrite E in Hin. destruct Hin.
Qed.

Lemma get_order_answer_witness :
  let w := World (sample_db "ORD-1" "B-1" "pending" "unpaid" "unpaid") [] in
  ∃ t tg,
    transactions (db w) !! "ORD-1" = Some t
    ∧ get_order "user-1" "ORD-1" w
      = (w, Sent (Response 200 (obj [
           ("success", VBool true);
           ("data", VObj (<["tagihan" := tg]> t))])))
    ∧ ((tg = VNull
        ∧ ∀ k g, tagihan (db w) !! k = Some g
                 → field g "orderId" ≠ VStr "ORD-1")
       ∨ ∃ k g, tg = VObj g ∧ tagihan (db w) !! k = Some g
                ∧ field g "orderId" = VStr "ORD-1").
Proof.
  cbv zeta. eexists.
  edestruct (get_order_answer "user-1" "ORD-1"
               (World (sample_db "ORD-1" "B-1" "pending" "unpaid" "unpaid") []))
    as (tg & Hrun & Htg); [discriminate|reflexivity|reflexivity|].
  exists tg. split; [reflexivity|]. split; [exact Hrun|exact Htg].
Defined.


(** ** The bookings *)

Lemma new_booking_id_nonempty now suffix :
  String.eqb (new_booking_id now suffix) "" = false.
Proof. reflexivity. Qed.

(** A booking request in which the doctor, the date, the time or the
    service is absent or empty is answered 400 and nothing is written. *)
Theorem create_booking_missing_fields now suffix uid req_body w :
  truthy (field req_body "doctorId") = false
  ∨ truthy (field req_body "appointmentDate") = false
  ∨ truthy (field req_body "appointmentTime") = false
  ∨ truthy (field req_body "serviceType") = false →
  create_booking now suffix uid req_body w
  = (w, Sent (error_response 400 "Missing required fields")).
Proof.
  intros H. unfold create_booking. cbv zeta.
  assert (negb (truthy (field req_body "doctorId"))
          || negb (truthy (field req_body "appointmentDate"))
          || negb (truthy (field req_body "appointmentTime"))
          || negb (truthy (field req_body "serviceType")) = true) as ->.
  { destruct H as [->|[->|[->| ->]]]; simpl;
      rewrite ?orb_true_r; reflexivity. }
  by destruct w.
Qed.

Lemma create_booking_missing_fields_witness :
  create_booking 1700000000000 "k3x9" "user-1"
    (fields_of [("doctorId", VStr "dr-1"); ("appointmentDate", VStr "");
                ("appointmentTime", VStr "10:00");
                ("serviceType", VStr "scaling")])
    (World (fresh_db "B-1") [])
  = (World (fresh_db "B-1") [],
     Sent (error_response 400 "Missing required fields")).
Proof.
  apply (create_booking_missing_fields 1700000000000 "k3x9" "user-1").
  right. left. reflexivity.
Defined.

(** The field notes is optional in the check of the request but is always
    put in the document: a request without notes, otherwise complete, is
    answered 500 and stores nothing when the store refuses undefined values
    (the default of the SDK). *)
Theorem create_booking_without_notes now suffix uid req_body w :
  truthy (field req_body "doctorId") = true →
  truthy (field req_body "appointmentDate") = true →
  truthy (field req_body "appointmentTime") = true →
  truthy (field req_body "serviceType") = true →
  req_body !! "notes" = None →
  ignoreUndefinedProperties (db w) = false →
  create_booking now suffix uid req_body w
  = (w, Sent (error_response 500 "Failed to create booking")).
Proof.
  intros Hd Ha Ht Hs Hnotes Hflag.
  unfold create_booking. cbv zeta. rewrite Hd, Ha, Ht, Hs.
  unfold_js. run. rewrite new_booking_id_nonempty. run.
  assert (encode (db w) (fields_of [
            ("bookingId", VStr (new_booking_id now suffix));
            ("doctorId", field req_body "doctorId");
            ("pasienId", js_or (field req_body "patientId") (VStr uid));
            ("appointmentDate", field req_body "appointmentDate");
            ("appointmentTime", field req_body "appointmentTime");
            ("serviceType", field req_body "serviceType");
            ("notes", field req_body "notes");
            ("status", VStr "pending");
            ("paymentStatus", VStr "unpaid");
            ("createdAt", VServerTimestamp);
            ("updatedAt", VServerTimestamp)]) = None) as ->.
  { unfold encode. rewrite Hflag.
    destruct (has_undefined (VObj _)) eqn:E; [reflexivity|].
    apply has_undefined_obj in E.
    specialize (E "notes" VUndef). simpl in E.
    unfold field in E. rewrite Hnotes in E. simpl in E.
    discriminate E. reflexivity. }
  by destruct w.
Qed.

Lemma create_booking_without_notes_witness :
  create_booking 1700000000000 "k3x9" "user-1"
    (fields_of [("doctorId", VStr "dr-1");
                ("appointmentDate", VStr "2025-01-01");
                ("appointmentTime", VStr "10:00");
                ("serviceType", VStr "scaling")])
    (World (fresh_db "B-1") [])
  = (World (fresh_db "B-1") [],
     Sent (error_response 500 "Failed to create booking")).
Proof.
  apply (create_booking_without_notes 1700000000000 "k3x9" "user-1");
    reflexivity.
Defined.

Lemma field_set now (data : object) k v :
  data !! k = Some v → field (stamp now <$> data) k = stamp now v.
Proof. intros H. unfold field. by rewrite lookup_fmap, H. Qed.

(** A complete booking request with notes is answered 201 and stores the
    booking under its new id, at status pending and payment status unpaid,
    for the patient named in the request (JSON, so no timestamp sentinel) or
    else for the caller.  GET
    /bookings/:id then gives the stored booking to that patient and answers
    403 to everybody else, the caller included when the booking was made
    for another patient. *)
Theorem create_booking_then_get now suffix uid req_body w :
  truthy (field req_body "doctorId") = true →
  truthy (field req_body "appointmentDate") = true →
  truthy (field req_body "appointmentTime") = true →
  truthy (field req_body "serviceType") = true →
  is_Some (req_body !! "notes") →
  has_undefined (VObj req_body) = false →
  field req_body "patientId" ≠ VServerTimestamp →
  let id := new_booking_id now suffix in
  let pasien := js_or (field req_body "patientId") (VStr uid) in
  ∃ r b,
    create_booking now suffix uid req_body w
    = (World (set_coll (db w) Bookings (<[id := b]> (bookings (db w))))
         (calls w), Sent r)
    ∧ status_code r = 201%nat
    ∧ (field b "status", field b "paymentStatus", field b "pasienId")
      = (VStr "pending", VStr "unpaid", pasien)
    ∧ ∀ w' u,
        bookings (db w') !! id = Some b →
        get_booking u id w'
        = (w', Sent (if is_str pasien u
                     then Response 200 (obj [
                            ("success", VBool true);
                            ("data", VObj (b ∪ fields_of [("id", VStr id)]))])
                     else error_response 403 "Access denied")).
Proof.
  intros Hd Ha Ht Hs [notes Hnotes] Hu Hjson. cbv zeta.
  pose proof (has_undefined_field _ _ Hu Hd) as Hud.
  pose proof (has_undefined_field _ _ Hu Ha) as Hua.
  pose proof (has_undefined_field _ _ Hu Ht) as Hut.
  pose proof (has_undefined_field _ _ Hu Hs) as Hus.
  assert (Hun : has_undefined (field req_body "notes") = false).
  { unfold field. rewrite Hnotes.
    exact (proj1 (has_undefined_obj req_body) Hu "notes" notes Hnotes). }
  assert (Hup : has_undefined (js_or (field req_body "patientId") (VStr uid))
                = false).
  { unfold js_or. destruct (truthy (field req_body "patientId")) eqn:E;
      [by apply has_undefined_field|reflexivity]. }
  assert (Hstamp : stamp (serverTime (db w))
                     (js_or (field req_body "patientId") (VStr uid))
                   = js_or (field req_body "patientId") (VStr uid)).
  { destruct (js_or _ _) eqn:E; try reflexivity.
    unfold js_or in E. destruct (truthy (field req_body "patientId")) eqn:E';
      [|discriminate].
    contradiction. }
  eexists _, _. split.
  { unfold create_booking. cbv zeta. rewrite Hd, Ha, Ht, Hs.
    unfold_js. run. rewrite new_booking_id_nonempty. run.
    rewrite encode_defined by fields_defined. run. reflexivity. }
  split; [reflexivity|]. split.
  { rewrite (field_set _ _ "status" (VStr "pending")) by reflexivity.
    rewrite (field_set _ _ "paymentStatus" (VStr "unpaid")) by reflexivity.
    rewrite (field_set _ _ "pasienId"
               (js_or (field req_body "patientId") (VStr uid)))
      by reflexivity.
    by rewrite Hstamp. }
  intros w' u Hb.
  unfold get_booking. unfold_js. run. rewrite new_booking_id_nonempty. run.
  rewrite Hb. run.
  rewrite (field_set _ _ "pasienId"
             (js_or (field req_body "patientId") (VStr uid))) by reflexivity.
  rewrite Hstamp.
  destruct (is_str (js_or (field req_body "patientId") (VStr uid)) u);
    by destruct w'.
Qed.

Lemma create_booking_then_get_witness :
  ∃ r b,
    create_booking 1700000000000 "k3x9" "user-1"
      (fields_of [("doctorId", VStr "dr-1"); ("patientId", VStr "user-2");
                  ("appointmentDate", VStr "2025-01-01");
                  ("appointmentTime", VStr "10:00");
                  ("serviceType", VStr "scaling"); ("notes", VStr "")])
      (World (fresh_db "B-1") [])
    = (World (set_coll (fresh_db "B-1") Bookings
                (<["BOOK-1700000000000-k3x9" := b]>
                   (bookings (fresh_db "B-1")))) [], Sent r)
    ∧ status_code r = 201%nat
    ∧ field b "pasienId" = VStr "user-2"
    ∧ ∀ w',
        bookings (db w') !! "BOOK-1700000000000-k3x9" = Some b →
        get_booking "user-1" "BOOK-1700000000000-k3x9" w'
        = (w', Sent (error_response 403 "Access denied")).
Proof.
  edestruct (create_booking_then_get 1700000000000 "k3x9" "user-1"
               (fields_of [("doctorId", VStr "dr-1");
                           ("patientId", VStr "user-2");
                           ("appointmentDate", VStr "2025-01-01");
                           ("appointmentTime", VStr "10:00");
                           ("serviceType", VStr "scaling");
                           ("notes", VStr "")])
               (World (fresh_db "B-1") []))
    as (r & b & Hrun & Hcode & Hfields & Hget);
    [reflexivity| reflexivity| reflexivity| reflexivity
    | eexists; reflexivity | vm_compute; reflexivity | discriminate |].
  exists r, b. split; [exact Hrun|]. split; [exact Hcode|].
  split; [injection Hfields as _ _ Hp; rewrite Hp; reflexivity|].
  intros w' Hb. exact (Hget w' "user-1" Hb).
Defined.

(** For a booking id that is a document id, a booking that does not exist
    is answered 404 and a booking of another patient 403, by GET
    /bookings/:id and by PATCH /bookings/:id/status alike, and nothing is
    written. *)
Theorem booking_of_another_patient uid id req_body w :
  document_id id →
  match bookings (db w) !! id with
  | Some b => field b "pasienId" ≠ VStr uid
  | None => True
  end →
  let r := match bookings (db w) !! id with
           | Some _ => error_response 403 "Access denied"
           | None => error_response 404 "Booking not found"
           end in
  get_booking uid id w = (w, Sent r)
  ∧ update_booking_status uid id req_body w = (w, Sent r).
Proof.
  intros Hid%document_id_nonempty Hb. cbv zeta.
  unfold get_booking, update_booking_status. unfold_js. run.
  rewrite (eqb_nonempty _ Hid). run.
  destruct (bookings (db w) !! id) as [b|] eqn:E; run.
  - destruct (is_str (field b "pasienId") uid) eqn:Hs.
    + apply is_str_true in Hs. contradiction.
    + run. by destruct w.
  - by destruct w.
Qed.

Lemma booking_of_another_patient_witness :
  get_booking "user-2" "B-1" (World (fresh_db "B-1") [])
  = (World (fresh_db "B-1") [], Sent (error_response 403 "Access denied"))
  ∧ update_booking_status "user-2" "B-1"
      (fields_of [("status", VStr "cancelled")]) (World (fresh_db "B-1") [])
    = (World (fresh_db "B-1") [], Sent (error_response 403 "Access denied")).
Proof.
  apply (booking_of_another_patient "user-2" "B-1"
           (fields_of [("status", VStr "cancelled")])
           (World (fresh_db "B-1") [])); [reflexivity|].
  vm_compute. discriminate.
Defined.

(** ** The authentication *)

Lemma append_empty (s : string) : s +:+ "" = s.
Proof.
  induction s as [|c s IH]; [reflexivity|].
  change (String c (s +:+ "") = String c s). by rewrite IH.
Qed.

Lemma append_assoc (s t u : string) : (s +:+ t) +:+ u = s +:+ (t +:+ u).
Proof.
  induction s as [|c s IH]; [reflexivity|].
  change (String c ((s +:+ t) +:+ u) = String c (s +:+ (t +:+ u))).
  by rewrite IH.
Qed.

Lemma split_from_whole sep s piece :
  occurs sep s = false → split_from sep s 0 piece = [piece +:+ s].
Proof.
  revert piece. induction s as [|c r IH]; intros piece H.
  - simpl. by rewrite append_empty.
  - cbn [occurs] in H. apply orb_false_iff in H as [Hp Hr].
    cbn [split_from]. rewrite Hp, (IH _ Hr), append_assoc. reflexivity.
Qed.

Lemma split_from_skip sep a s piece :
  split_from sep (a +:+ s) (String.length a) piece = split_from sep s 0 piece.
Proof.
  induction a as [|c a IH]; [reflexivity|].
  change (String c a +:+ s) with (String c (a +:+ s)). exact IH.
Qed.

Lemma bearer_token_of t :
  occurs "Bearer " t = false → bearer_token (Some ("Bearer " +:+ t)) = VStr t.
Proof.
  intros H. unfold bearer_token, split.
  change ("Bearer " +:+ t) with (String "B" ("earer " +:+ t)).
  cbn [split_from].
  assert (String.prefix "Bearer " (String "B" ("earer " +:+ t)) = true) as ->
    by (destruct t; reflexivity).
  change (String.length "Bearer " - 1)%nat with (String.length "earer ").
  rewrite (split_from_skip "Bearer " "earer " t "").
  by rewrite (split_from_whole _ _ _ H).
Qed.

Lemma bearer_token_none h :
  occurs "Bearer " h = false → bearer_token (Some h) = VUndef.
Proof.
  intros H. unfold bearer_token, split. by rewrite (split_from_whole _ _ _ H).
Qed.

(** A request without an Authorization header, with a header in which
    "Bearer " does not occur, or with the header "Bearer " and nothing after
    it, is answered 401 'No token provided': the route does not run and
    nothing is written, whatever the verifier would say. *)
Theorem no_token_no_route verifyIdToken authorization route w :
  match authorization with
  | Some h => occurs "Bearer " h = false ∨ h = "Bearer "
  | None => True
  end →
  authenticated verifyIdToken authorization route w
  = (w, Sent (Response 401 (obj [("error", VStr "No token provided")]))).
Proof.
  intros H. unfold authenticated, verifyToken.
  assert (truthy (bearer_token authorization) = false) as Ht.
  { destruct authorization as [h|]; [|reflexivity].
    destruct H as [H| ->]; [by rewrite bearer_token_none | reflexivity]. }
  unfold_js. rewrite Ht. run. by destruct w.
Qed.

Lemma no_token_no_route_witness :
  authenticated (λ _, Verified "user-1") (Some "Basic dXNlcjpwYXNz")
    (λ uid, get_booking uid "B-1") (World (fresh_db "B-1") [])
  = (World (fresh_db "B-1") [],
     Sent (Response 401 (obj [("error", VStr "No token provided")]))).
Proof.
  apply (no_token_no_route (λ _, Verified "user-1")
           (Some "Basic dXNlcjpwYXNz")).
  left. reflexivity.
Defined.

(** With the header "Bearer t", where t is not empty and "Bearer " does not
    occur in it, the verifier is given exactly t: when it refuses, the
    answer is 401 'Invalid token' and the route does not run; when it
    accepts, the route runs for the uid that the verifier names, from the
    same world. *)
Theorem bearer_token_decides verifyIdToken t route w :
  t ≠ "" → occurs "Bearer " t = false →
  authenticated verifyIdToken (Some ("Bearer " +:+ t)) route w
  = match verifyIdToken (VStr t) with
    | Verified uid => route uid w
    | Refused _ =>
        (w, Sent (Response 401 (obj [("error", VStr "Invalid token")])))
    end.
Proof.
  intros Ht H. unfold authenticated, verifyToken.
  rewrite (bearer_token_of _ H). cbn [truthy].
  rewrite (eqb_nonempty _ Ht). unfold_js. run.
  destruct (verifyIdToken (VStr t)) as [uid|e]; run.
  - destruct w. run. by destruct (route uid _) as [? []].
  - by destruct w.
Qed.

Lemma bearer_token_decides_witness :
  authenticated
    (λ token, if is_str token "abc" then Verified "user-1"
              else Refused (Error "auth/argument-error"))
    (Some "Bearer abc") (λ uid, get_booking uid "B-1")
    (World (fresh_db "B-1") [])
  = get_booking "user-1" "B-1" (World (fresh_db "B-1") []).
Proof.
  apply (bearer_token_decides
           (λ token, if is_str token "abc" then Verified "user-1"
                     else Refused (Error "auth/argument-error"))
           "abc" (λ uid, get_booking uid "B-1")); [discriminate|reflexivity].
Defined.

(** ** Every route answers *)

Lemma stops_bind {A B} (m : js A) (f : A → js B) :
  (∀ a, stops (f a)) → stops (m ≫= f).
Proof.
  intros Hf w. unfold mbind, js_bind.
  destruct (m w) as [w1 [a|e|r]] eqn:E; [apply Hf|done|done].
Qed.

Lemma stops_try_catch {A} (m : js A) (h : exn → js A) :
  stops m → (∀ e, stops (h e)) → stops (try_catch m h).
Proof.
  intros Hm Hh w. unfold try_catch. specialize (Hm w).
  destruct (m w) as [w1 [a|e|r]]; [done|apply Hh|done].
Qed.

Lemma stops_send {A} code v : stops (send (A:=A) code v).
Proof. by intros w. Qed.

Lemma stops_throw {A} e : stops (throw (A:=A) e).
Proof. by intros w. Qed.

Lemma answers_send {A} code v : answers (send (A:=A) code v).
Proof. intros w. by eexists _, _. Qed.

Lemma answers_try_catch {A} (m : js A) (h : exn → js A) :
  stops m → (∀ e, answers (h e)) → answers (try_catch m h).
Proof.
  intros Hm Hh w. unfold try_catch. specialize (Hm w).
  destruct (m w) as [w1 [a|e|r]]; [done|apply Hh|by eexists _, _].
Qed.

(** Follows a computation to the last statement of each of its paths. *)
Ltac stops_step :=
  lazymatch goal with
  | |- stops (try_catch _ _) => apply stops_try_catch; [|intros ?]
  | |- stops (mbind _ _) => apply stops_bind; intros ?
  | |- stops (send _ _) => apply stops_send
  | |- stops (throw _) => apply stops_throw
  | |- stops (let _ := _ in _) => cbv zeta
  | |- stops (match ?x with _ => _ end) => destruct x
  end.

Ltac route_answers :=
  apply answers_try_catch; [repeat stops_step | intros ?; apply answers_send].

(** The webhook and the status check end with an answer, whatever the
    request, the store and the provider: no path through the handlers ends
    without one, and no exception leaves them. *)
Theorem reconciliation_routes_answer p id body :
  answers (notification p body) ∧ answers (check_status p id).
Proof.
  split.
  - unfold notification. route_answers.
  - unfold check_status. route_answers.
Qed.

(** The four routes that create a payment end with an answer, whatever the
    request, the store and the provider. *)
Theorem payment_routes_answer p uid id req_body :
  Forall (answers (A:=unit))
    [create_transaction p uid req_body; create_order p uid req_body;
     create p req_body; payment_url p id].
Proof.
  repeat apply Forall_cons_2; [..|apply Forall_nil_2].
  - unfold create_transaction. route_answers.
  - unfold create_order. route_answers.
  - unfold create. route_answers.
  - unfold payment_url. route_answers.
Qed.

(** The routes of the bookings end with an answer, whatever the request and
    the store. *)
Theorem booking_routes_answer now suffix uid id req_body :
  Forall (answers (A:=unit))
    [create_booking now suffix uid req_body; get_booking uid id;
     update_booking_status uid id req_body].
Proof.
  repeat apply Forall_cons_2; [..|apply Forall_nil_2].
  - unfold create_booking. route_answers.
  - unfold get_booking. route_answers.
  - unfold update_booking_status. route_answers.
Qed.

(** ** What the routes leave alone *)

#[global] Instance writes_in_preorder cs : PreOrder (writes_in cs).
Proof.
  split.
  - by intros w c Hc.
  - intros w1 w2 w3 H12 H23 c Hc. by rewrite (H23 c Hc), (H12 c Hc).
Qed.

Lemma preserves_doc_bind R `{!PreOrder R} {B} c v (f : ref → js B) :
  (∀ s, preserves R (f (c, s))) → preserves R (doc c v ≫= f).
Proof.
  intros Hf w w' out. unfold mbind, js_bind, doc.
  destruct v; try by intros [= <- <-].
  destruct (String.eqb _ ""); [by intros [= <- <-]|]. apply Hf.
Qed.

Section writes_in.
Context (cs : list collection).

Lemma log_call_writes_in c : preserves (writes_in cs) (log_call c).
Proof. by intros w w' out [= <- <-] c' Hc'. Qed.

Lemma put_writes_in r o : r.1 ∈ cs → preserves (writes_in cs) (put r o).
Proof.
  intros Hr w w' out [= <- <-] c Hc. cbn [db].
  rewrite coll_set_coll. case_decide; [by subst|done].
Qed.

Lemma encoded_writes_in data : preserves (writes_in cs) (encoded data).
Proof.
  apply preserves_still; [typeclasses eauto|].
  intros w. unfold encoded. by case_match.
Qed.

Lemma set_writes_in r data :
  r.1 ∈ cs → preserves (writes_in cs) (set r data).
Proof.
  intros Hr. apply preserves_bind; [typeclasses eauto| |intros o].
  - apply encoded_writes_in.
  - by apply put_writes_in.
Qed.

Lemma update_writes_in r data :
  r.1 ∈ cs → preserves (writes_in cs) (update r data).
Proof.
  intros Hr. unfold update.
  apply preserves_bind; [typeclasses eauto| |intros o].
  { apply encoded_writes_in. }
  apply preserves_bind; [typeclasses eauto| |intros [cur|]].
  - apply preserves_get; typeclasses eauto.
  - by apply put_writes_in.
  - apply preserves_throw; typeclasses eauto.
Qed.

Lemma delete_doc_writes_in r :
  r.1 ∈ cs → preserves (writes_in cs) (delete_doc r).
Proof.
  intros Hr w w' out [= <- <-] c Hc. cbn [db].
  rewrite coll_set_coll. case_decide; [by subst|done].
Qed.
End writes_in.

(** Breaks a computation into its steps, with the collection of each
    document reference. *)
Ltac writes_step :=
  lazymatch goal with
  | |- preserves _ (mbind _ (doc _ _)) =>
      apply preserves_doc_bind; [typeclasses eauto|intros ?]
  | |- preserves _ (log_call _) => apply log_call_writes_in
  | |- preserves _ (set _ _) => apply set_writes_in; cbn [fst]; repeat constructor
  | |- preserves _ (update _ _) => apply update_writes_in; cbn [fst]; repeat constructor
  | |- preserves _ (delete_doc _) => apply delete_doc_writes_in; cbn [fst]; repeat constructor
  | |- preserves _ (transaction_status _ _) => unfold transaction_status
  | |- preserves _ (createTransaction _ _) => unfold createTransaction
  | |- _ => preserves_step
  end.

Ltac writes_steps := repeat writes_step.

Lemma create_transaction_writes p uid req_body :
  preserves (writes_in [Transactions; Orders; Tagihan])
    (create_transaction p uid req_body).
Proof. unfold create_transaction. writes_steps. Qed.

Lemma create_order_writes p uid req_body :
  preserves (writes_in [Transactions; Orders; Tagihan])
    (create_order p uid req_body).
Proof. unfold create_order. writes_steps. Qed.

Lemma create_writes p req_body :
  preserves (writes_in [Transactions]) (create p req_body).
Proof. unfold create. writes_steps. Qed.

Lemma payment_url_writes p id :
  preserves (writes_in [Transactions]) (payment_url p id).
Proof. unfold payment_url. writes_steps. Qed.

Lemma create_booking_writes now suffix uid req_body :
  preserves (writes_in [Bookings]) (create_booking now suffix uid req_body).
Proof. unfold create_booking. writes_steps. Qed.

Lemma update_booking_status_writes uid id req_body :
  preserves (writes_in [Bookings]) (update_booking_status uid id req_body).
Proof. unfold update_booking_status. writes_steps. Qed.

Lemma preserves_run {A} R (m : js A) w : preserves R m → R w (m w).1.
Proof. intros H. destruct (m w) as [w' out] eqn:E. exact (H _ _ _ E). Qed.

Ltac other_collection :=
  let H := fresh in
  intros H; rewrite ?elem_of_cons, elem_of_nil in H; intuition congruence.

Lemma writes_in_transactions w w' :
  writes_in [Transactions] w w' →
  besides_transactions (db w') = besides_transactions (db w).
Proof.
  intros H. unfold besides_transactions.
  change (orders (db w')) with (coll (db w') Orders).
  change (tagihan (db w')) with (coll (db w') Tagihan).
  change (bookings (db w')) with (coll (db w') Bookings).
  rewrite (H Orders), (H Tagihan), (H Bookings);
    [reflexivity|other_collection..].
Qed.

Lemma writes_in_bookings w w' :
  writes_in [Bookings] w w' → payments (db w') = payments (db w).
Proof.
  intros H. unfold payments.
  change (transactions (db w')) with (coll (db w') Transactions).
  change (orders (db w')) with (coll (db w') Orders).
  change (tagihan (db w')) with (coll (db w') Tagihan).
  rewrite (H Transactions), (H Orders), (H Tagihan);
    [reflexivity|other_collection..].
Qed.

(** The routes that create a payment never write a booking, whatever the
    request and however they end; POST /create and GET /payment-url write
    no order and no billing statement either. *)
Theorem payment_routes_keep_bookings p uid id req_body w :
  bookings (db (create_transaction p uid req_body w).1) = bookings (db w)
  ∧ bookings (db (create_order p uid req_body w).1) = bookings (db w)
  ∧ besides_transactions (db (create p req_body w).1)
    = besides_transactions (db w)
  ∧ besides_transactions (db (payment_url p id w).1)
    = besides_transactions (db w).
Proof.
  split_and!.
  - apply (preserves_run _ _ w (create_transaction_writes p uid req_body)
             Bookings). other_collection.
  - apply (preserves_run _ _ w (create_order_writes p uid req_body)
             Bookings). other_collection.
  - apply writes_in_transactions, preserves_run, create_writes.
  - apply writes_in_transactions, preserves_run, payment_url_writes.
Qed.

(** The routes of the bookings never write a transaction, an order or a
    billing statement. *)
Theorem booking_routes_keep_payments now suffix uid id req_body w :
  payments (db (create_booking now suffix uid req_body w).1)
  = payments (db w)
  ∧ payments (db (update_booking_status uid id req_body w).1)
    = payments (db w).
Proof.
  split.
  - apply writes_in_bookings, preserves_run, create_booking_writes.
  - apply writes_in_bookings, preserves_run, update_booking_status_writes.
Qed.

(** GET /order/:orderId and GET /bookings/:id answer and leave the store
    and the log of provider calls as they found them. *)
Theorem reading_routes_write_nothing uid id w :
  (∃ r, get_order uid id w = (w, Sent r))
  ∧ (∃ r, get_booking uid id w = (w, Sent r)).
Proof.
  assert (Ho : preserves untouched (get_order uid id))
    by (unfold get_order; preserves_steps).
  assert (Hb : preserves untouched (get_booking uid id))
    by (unfold get_booking; preserves_steps).
  split.
  - assert (answers (get_order uid id)) as Ha
      by (unfold get_order; route_answers).
    destruct (Ha w) as (w' & r & E). rewrite E. rewrite (Ho _ _ _ E).
    by exists r.
  - assert (answers (get_booking uid id)) as Ha
      by (unfold get_booking; route_answers).
    destruct (Ha w) as (w' & r & E). rewrite E. rewrite (Hb _ _ _ E).
    by exists r.
Qed.
